(** * pg-harmony: the access and data-consistency contract

    A shallow embedding of the property-management application: the
    relational schema with its constraints and row-level policies
    (the SQL migration), and the page handlers that call it
    (Dashboard, RentTracking, MaintenanceManagement, TenantManagement,
    SubmitRequest, MyRentHistory, DashboardLayout, App).

    Conventions of the embedding.
    - A table is the list of its rows, oldest first.
    - Identifiers are UUID texts, [string], taken to be well formed (a
      text that is no UUID is refused by the store before any check,
      which is not modelled); [gen_random_uuid()] is a sequence kept
      in the store, so generated identifiers are fresh.
    - Timestamps are integers (milliseconds); every reading of a clock
      is an explicit argument: [now] for the store's [now()],
      [client_now] for the browser's [new Date()].
    - [NUMERIC(10,2)] values are integers counting hundredths, and a
      [DATE] is a day number.
    - A text stands for the sequence of its code units, and its length
      is what [.length] returns.
    - A store call either fails with the error object PostgREST returns
      or succeeds with the new store; transport failures are outside
      the model. Of an error object the code is PostgreSQL's; the
      message is shortened (PostgreSQL quotes the names in it).
    - A handler is given [uid], the principal as whom the client sends
      its calls. The one call that can change it is the sign-up of
      [TenantManagement]: [handleSubmit] sends the two inserts as
      [uid], and [handleSubmit_session] follows the session.
    - A path is the pathname the router matches, already normalised. *)

From stdpp Require Import base list strings pretty sorting.
From Stdlib Require Import ZArith Lia.

#[local] Set Warnings "-clear-no-such-hyp".

Open Scope string_scope.
Open Scope Z_scope.
Open Scope list_scope.

(** ** Data model *)

Definition uuid := string.

(** [CREATE TYPE public.app_role AS ENUM ('admin', 'tenant')] *)
Inductive app_role := admin | tenant.

#[global] Instance app_role_eq_dec : EqDecision app_role.
Proof. solve_decision. Defined.

Record auth_user := mk_auth_user {
  au_id : uuid;
  au_email : string }.

Record profile_row := mk_profile {
  pf_user_id : uuid;
  pf_full_name : option string }.

Record user_role_row := mk_user_role {
  ur_user_id : uuid;
  ur_role : app_role }.

Record tenant_row := mk_tenant {
  t_id : uuid;
  t_name : string;
  t_room_no : string;
  t_contact : string;
  t_deposit_amount : Z;
  t_auth_user_id : option uuid;
  t_created_at : Z }.

Record rent_payment_row := mk_rent_payment {
  rp_id : uuid;
  rp_tenant_id : uuid;
  rp_month : Z;
  rp_year : Z;
  rp_amount : Z;
  rp_paid_on : Z;
  rp_created_at : Z }.

Record maintenance_request_row := mk_maintenance_request {
  mr_id : uuid;
  mr_tenant_id : uuid;
  mr_room_no : string;
  mr_issue_description : string;
  mr_status : string;
  mr_created_at : Z;
  mr_resolved_at : option Z }.

Record DB := mkDB {
  uuid_seq : N;
  auth_users : list auth_user;
  profiles : list profile_row;
  user_roles : list user_role_row;
  tenants : list tenant_row;
  rent_payments : list rent_payment_row;
  maintenance_requests : list maintenance_request_row }.

Definition empty_db : DB := mkDB 0 [] [] [] [] [] [].

(** The error object of a failed store call: SQLSTATE and message. *)
Record PostgrestError := mk_pg_error {
  code : string;
  message : string }.

(** ** The store: schema constraints and row-level policies *)

Module Schema.

Definition with_rent_payments (db : DB) (l : list rent_payment_row) : DB :=
  mkDB (uuid_seq db) (auth_users db) (profiles db) (user_roles db)
       (tenants db) l (maintenance_requests db).

Definition with_maintenance_requests (db : DB)
    (l : list maintenance_request_row) : DB :=
  mkDB (uuid_seq db) (auth_users db) (profiles db) (user_roles db)
       (tenants db) (rent_payments db) l.

Definition with_tenants (db : DB) (l : list tenant_row) : DB :=
  mkDB (uuid_seq db) (auth_users db) (profiles db) (user_roles db)
       l (rent_payments db) (maintenance_requests db).

Definition with_user_roles (db : DB) (l : list user_role_row) : DB :=
  mkDB (uuid_seq db) (auth_users db) (profiles db) l
       (tenants db) (rent_payments db) (maintenance_requests db).

(** [gen_random_uuid()]: the next identifier of the sequence. *)
Definition gen_random_uuid (db : DB) : uuid * DB :=
  (pretty (uuid_seq db),
   mkDB (N.succ (uuid_seq db)) (auth_users db) (profiles db) (user_roles db)
        (tenants db) (rent_payments db) (maintenance_requests db)).

(** [NUMERIC(10,2)]: at most eight digits before the point. *)
Definition numeric_10_2_fits (v : Z) : bool := Z.abs v <? 10 ^ 10.

(** [public.has_role(_user_id, _role)] *)
Definition has_role (db : DB) (_user_id : uuid) (_role : app_role) : bool :=
  existsb
    (fun r => String.eqb (ur_user_id r) _user_id
              && bool_decide (ur_role r = _role))
    (user_roles db).

(** [public.get_tenant_id_for_user(_user_id)]:
    [SELECT id FROM tenants WHERE auth_user_id = _user_id LIMIT 1]. *)
Definition get_tenant_id_for_user (db : DB) (_user_id : uuid) : option uuid :=
  t_id <$> head (filter (fun t => t_auth_user_id t = Some _user_id) (tenants db)).

(** [tenant_id = public.get_tenant_id_for_user(auth.uid())]; a NULL
    on the right makes the comparison fail. *)
Definition owns (db : DB) (uid : uuid) (tenant_id : uuid) : bool :=
  match get_tenant_id_for_user db uid with
  | Some own => String.eqb tenant_id own
  | None => false
  end.

(** *** Policies (permissive: a row passes when one policy accepts it) *)

(* "Admins can do everything with tenants" (ALL),
   "Tenants can view their own record" (SELECT) *)
Definition tenants_select_policy (db : DB) (uid : uuid) (t : tenant_row) : bool :=
  has_role db uid admin || bool_decide (Some uid = t_auth_user_id t).

Definition tenants_write_policy (db : DB) (uid : uuid) : bool :=
  has_role db uid admin.

(* "Admins can manage all rent payments" (ALL),
   "Tenants can view their own rent payments" (SELECT) *)
Definition rent_payments_select_policy (db : DB) (uid : uuid)
    (r : rent_payment_row) : bool :=
  has_role db uid admin || owns db uid (rp_tenant_id r).

Definition rent_payments_write_policy (db : DB) (uid : uuid) : bool :=
  has_role db uid admin.

(* "Admins can manage all maintenance requests" (ALL),
   "Tenants can view their own maintenance requests" (SELECT),
   "Tenants can create maintenance requests" (INSERT) *)
Definition maintenance_requests_select_policy (db : DB) (uid : uuid)
    (r : maintenance_request_row) : bool :=
  has_role db uid admin || owns db uid (mr_tenant_id r).

Definition maintenance_requests_insert_policy (db : DB) (uid : uuid)
    (tenant_id : uuid) : bool :=
  has_role db uid admin || owns db uid tenant_id.

Definition maintenance_requests_update_policy (db : DB) (uid : uuid) : bool :=
  has_role db uid admin.

(* "Admins can manage roles" (ALL) *)
Definition user_roles_write_policy (db : DB) (uid : uuid) : bool :=
  has_role db uid admin.

(** *** Errors, by SQLSTATE *)

Definition rls_violation (table : string) : PostgrestError :=
  mk_pg_error "42501"
    ("new row violates row-level security policy for table " +:+ table).
Definition numeric_overflow : PostgrestError :=
  mk_pg_error "22003" "numeric field overflow".
Definition check_violation (constraint : string) : PostgrestError :=
  mk_pg_error "23514" ("new row violates check constraint " +:+ constraint).
Definition unique_violation (constraint : string) : PostgrestError :=
  mk_pg_error "23505"
    ("duplicate key value violates unique constraint " +:+ constraint).
Definition foreign_key_violation (constraint : string) : PostgrestError :=
  mk_pg_error "23503"
    ("insert or update violates foreign key constraint " +:+ constraint).

(** *** Reads: the rows the policies let the caller see *)

Definition select_tenants (db : DB) (uid : uuid) : list tenant_row :=
  filter (fun t => tenants_select_policy db uid t) (tenants db).

Definition select_rent_payments (db : DB) (uid : uuid) : list rent_payment_row :=
  filter (fun r => rent_payments_select_policy db uid r) (rent_payments db).

Definition select_maintenance_requests (db : DB) (uid : uuid)
    : list maintenance_request_row :=
  filter (fun r => maintenance_requests_select_policy db uid r)
         (maintenance_requests db).

(** [ORDER BY]: a stable insertion sort; [le a b] says that [a] may
    come before [b]. *)
Fixpoint insert_sorted {A} (le : A -> A -> bool) (x : A) (l : list A) : list A :=
  match l with
  | [] => [x]
  | y :: l' => if le x y then x :: l else y :: insert_sorted le x l'
  end.

Fixpoint order_by {A} (le : A -> A -> bool) (l : list A) : list A :=
  match l with
  | [] => []
  | x :: l' => insert_sorted le x (order_by le l')
  end.

(** *** Writes *)

Definition tenant_exists (db : DB) (tenant_id : uuid) : bool :=
  existsb (fun t => String.eqb (t_id t) tenant_id) (tenants db).

Definition user_exists (db : DB) (user_id : uuid) : bool :=
  existsb (fun u => String.eqb (au_id u) user_id) (auth_users db).

(** [UNIQUE (tenant_id, month, year)] on rent_payments. *)
Definition payment_recorded (db : DB) (tenant_id : uuid) (month year : Z) : bool :=
  existsb
    (fun r => String.eqb (rp_tenant_id r) tenant_id
              && (rp_month r =? month) && (rp_year r =? year))
    (rent_payments db).

(** [INSERT INTO rent_payments (tenant_id, month, year, amount, paid_on)].
    The value is coerced to the column type, the policy is checked on
    the new row, then the CHECK constraints, the unique index and the
    foreign key. *)
Definition insert_rent_payment (uid : uuid) (now : Z)
    (tenant_id : uuid) (month year amount paid_on : Z) (db : DB)
    : PostgrestError + DB :=
  if negb (numeric_10_2_fits amount) then inl numeric_overflow
  else if negb (rent_payments_write_policy db uid)
    then inl (rls_violation "rent_payments")
  else if negb ((1 <=? month) && (month <=? 12))
    then inl (check_violation "rent_payments_month_check")
  else if negb ((2000 <=? year) && (year <=? 2100))
    then inl (check_violation "rent_payments_year_check")
  else if payment_recorded db tenant_id month year
    then inl (unique_violation "rent_payments_tenant_id_month_year_key")
  else if negb (tenant_exists db tenant_id)
    then inl (foreign_key_violation "rent_payments_tenant_id_fkey")
  else
    let '(id, db1) := gen_random_uuid db in
    inr (with_rent_payments db1
           (rent_payments db1 ++
            [mk_rent_payment id tenant_id month year amount paid_on now])).

(** [INSERT INTO maintenance_requests (tenant_id, room_no,
    issue_description, status)]; [created_at] defaults to [now()],
    [resolved_at] to NULL. *)
Definition insert_maintenance_request (uid : uuid) (now : Z)
    (tenant_id : uuid) (room_no issue_description status : string) (db : DB)
    : PostgrestError + DB :=
  if negb (maintenance_requests_insert_policy db uid tenant_id)
    then inl (rls_violation "maintenance_requests")
  else if negb (String.eqb status "open" || String.eqb status "resolved")
    then inl (check_violation "maintenance_requests_status_check")
  else if negb (tenant_exists db tenant_id)
    then inl (foreign_key_violation "maintenance_requests_tenant_id_fkey")
  else
    let '(id, db1) := gen_random_uuid db in
    inr (with_maintenance_requests db1
           (maintenance_requests db1 ++
            [mk_maintenance_request id tenant_id room_no issue_description
               status now None])).

(** [UPDATE maintenance_requests SET status = .., resolved_at = ..
    WHERE id = ..]: the rows the update policy hides from the caller
    are skipped without an error. *)
Definition update_maintenance_request (uid : uuid) (id : uuid)
    (status : string) (resolved_at : Z) (db : DB) : PostgrestError + DB :=
  if negb (String.eqb status "open" || String.eqb status "resolved")
    && maintenance_requests_update_policy db uid
    && existsb (fun r => String.eqb (mr_id r) id) (maintenance_requests db)
    then inl (check_violation "maintenance_requests_status_check")
  else
    inr (with_maintenance_requests db
           ((fun r =>
               if maintenance_requests_update_policy db uid
                  && String.eqb (mr_id r) id
               then mk_maintenance_request (mr_id r) (mr_tenant_id r)
                      (mr_room_no r) (mr_issue_description r)
                      status (mr_created_at r) (Some resolved_at)
               else r)
            <$> maintenance_requests db)).

(** [INSERT INTO tenants (name, room_no, contact, deposit_amount,
    auth_user_id)]. *)
Definition insert_tenant (uid : uuid) (now : Z)
    (name room_no contact : string) (deposit_amount : Z)
    (auth_user_id : uuid) (db : DB) : PostgrestError + DB :=
  if negb (numeric_10_2_fits deposit_amount) then inl numeric_overflow
  else if negb (tenants_write_policy db uid)
    then inl (rls_violation "tenants")
  else if negb (user_exists db auth_user_id)
    then inl (foreign_key_violation "tenants_auth_user_id_fkey")
  else
    let '(id, db1) := gen_random_uuid db in
    inr (with_tenants db1
           (tenants db1 ++
            [mk_tenant id name room_no contact deposit_amount
               (Some auth_user_id) now])).

(** [INSERT INTO user_roles (user_id, role)], with
    [UNIQUE (user_id, role)]. *)
Definition insert_user_role (uid : uuid) (user_id : uuid) (role : app_role)
    (db : DB) : PostgrestError + DB :=
  if negb (user_roles_write_policy db uid)
    then inl (rls_violation "user_roles")
  else if has_role db user_id role
    then inl (unique_violation "user_roles_user_id_role_key")
  else if negb (user_exists db user_id)
    then inl (foreign_key_violation "user_roles_user_id_fkey")
  else
    inr (with_user_roles db (user_roles db ++ [mk_user_role user_id role])).

(** [auth.signUp]: a new row of [auth.users]; the trigger
    [on_auth_user_created] runs [handle_new_user], which adds the profile.
    This is the store's side of the sign-up; as whom the client sends
    its next calls is [TenantManagement.session_after_signUp]. *)
Definition auth_signUp (email password : string) (db : DB)
    : string + (auth_user * DB) :=
  if existsb (fun u => String.eqb (au_email u) email) (auth_users db)
  then inl "User already registered"
  else
    let '(id, db1) := gen_random_uuid db in
    let u := mk_auth_user id email in
    inr (u, mkDB (uuid_seq db1) (auth_users db1 ++ [u])
                 (profiles db1 ++ [mk_profile id None]) (user_roles db1)
                 (tenants db1) (rent_payments db1) (maintenance_requests db1)).

End Schema.

(** ** The client: calls, exceptions and notifications *)

(** A write issued to the backend. *)
Inductive Call :=
| CallSignUp
| CallInsert (table : string)
| CallUpdate (table : string).

(** What a handler runs against: the store and the log of the writes
    issued so far. *)
Record World := mkWorld {
  store : DB;
  calls : list Call }.

(** What a [try] block can throw. *)
Inductive Thrown :=
| ZodError (first : string) (rest : list string)
| JsError (msg : string)
| AuthError (msg : string)
| StoreError (e : PostgrestError).

Record Toast := mkToast {
  title : string;
  description : string;
  destructive : bool }.

Module Client.

Definition M (A : Type) : Type := World -> (Thrown + A) * World.

Definition ret {A} (a : A) : M A := fun w => (inr a, w).

Definition bind {A B} (m : M A) (k : A -> M B) : M B :=
  fun w =>
    match m w with
    | (inl e, w') => (inl e, w')
    | (inr a, w') => k a w'
    end.

Definition throw {A} (e : Thrown) : M A := fun w => (inl e, w).

(** [try { body } catch (error) { handler }], both ending in a toast. *)
Definition try_catch (body : M Toast) (handler : Thrown -> Toast)
    : World -> Toast * World :=
  fun w =>
    match body w with
    | (inl e, w') => (handler e, w')
    | (inr t, w') => (t, w')
    end.

(** A store call: logged, applied when it succeeds, and answered with
    [{ error }]. *)
Definition supabase_call (c : Call) (f : DB -> PostgrestError + DB)
    : M (option PostgrestError) :=
  fun w =>
    match f (store w) with
    | inl e => (inr (Some e), mkWorld (store w) (calls w ++ [c]))
    | inr db' => (inr None, mkWorld db' (calls w ++ [c]))
    end.

(** [supabase.auth.signUp], answered with [{ data, error }]. *)
Definition supabase_auth_signUp (email password : string)
    : M (string + auth_user) :=
  fun w =>
    match Schema.auth_signUp email password (store w) with
    | inl msg => (inr (inl msg), mkWorld (store w) (calls w ++ [CallSignUp]))
    | inr (u, db') => (inr (inr u), mkWorld db' (calls w ++ [CallSignUp]))
    end.

(** [error.message] of a thrown error object. *)
Definition thrown_message (e : Thrown) : string :=
  match e with
  | ZodError first _ => first
  | JsError msg => msg
  | AuthError msg => msg
  | StoreError e => message e
  end.

(** [error instanceof Error]; for the object a store call answers
    with, it depends on the client library ([pg_error_is_Error]). *)
Definition instanceof_Error (pg_error_is_Error : bool) (e : Thrown) : bool :=
  match e with
  | StoreError _ => pg_error_is_Error
  | _ => true
  end.

(** zod's message for a failed [.max(n)] without a message of its own. *)
Definition zod_too_big (n : nat) : string :=
  "String must contain at most " +:+ pretty n +:+ " character(s)".

End Client.

Declare Scope client_scope.
Delimit Scope client_scope with client.
Notation "'await' x <- m ;; k" := (Client.bind m (fun x => k))
  (at level 10, x name, m at level 99, k at level 200) : client_scope.

(** ** RentTracking.tsx *)

Module RentTracking.
Import Client.

(** The form, after [Number(..)] of its numeric fields. *)
Record FormData := mkFormData {
  tenant_id : uuid;
  month : Z;
  year : Z;
  amount : Z;
  paid_on : Z }.

Definition DuplicatePayment : Toast :=
  mkToast "Error" "Payment already recorded for this tenant and month" true.

Definition PaymentRecorded : Toast :=
  mkToast "Payment recorded" "Rent payment has been recorded successfully." false.

Section Handler.
Variable pg_error_is_Error : bool.

Definition handleSubmit (uid : uuid) (now : Z) (formData : FormData)
    : World -> Toast * World :=
  try_catch
    (await error <- supabase_call (CallInsert "rent_payments")
                (Schema.insert_rent_payment uid now (tenant_id formData)
                   (month formData) (year formData) (amount formData)
                   (paid_on formData)) ;;
     match error with
     | Some e =>
         if String.eqb (code e) "23505"
         then throw (JsError "Payment already recorded for this tenant and month")
         else throw (StoreError e)
     | None => ret PaymentRecorded
     end)%client
    (fun error =>
       mkToast "Error"
         (if instanceof_Error pg_error_is_Error error
          then thrown_message error
          else "Failed to record payment")
         true).
End Handler.

(** [fetchData]: tenants by room, the period's payments by date. *)
Definition fetchData (db : DB) (uid : uuid) (selectedMonth selectedYear : Z)
    : list tenant_row * list rent_payment_row :=
  (Schema.order_by (fun a b => String.leb (t_room_no a) (t_room_no b))
     (Schema.select_tenants db uid),
   Schema.order_by (fun a b => rp_paid_on b <=? rp_paid_on a)
     (filter (fun p => rp_month p = selectedMonth /\ rp_year p = selectedYear)
        (Schema.select_rent_payments db uid))).

(** [Array.prototype.includes] on identifiers. *)
Definition includes (l : list uuid) (x : uuid) : bool :=
  existsb (String.eqb x) l.

Definition paidTenantIds (payments : list rent_payment_row) : list uuid :=
  rp_tenant_id <$> payments.

Definition unpaidTenants (tenants : list tenant_row)
    (payments : list rent_payment_row) : list tenant_row :=
  filter (fun t => negb (includes (paidTenantIds payments) (t_id t))) tenants.

End RentTracking.

(** ** SubmitRequest.tsx *)

Module SubmitRequest.
Import Client.

Record TenantInfo := mkTenantInfo {
  id : uuid;
  room_no : string }.

(** [z.object({ issue_description: z.string().min(10, ..).max(1000) })] *)
Definition requestSchema_parse (issue_description : string) : M string :=
  if (String.length issue_description <? 10)%nat
    then throw (ZodError "Please describe the issue in at least 10 characters" [])
  else if (1000 <? String.length issue_description)%nat
    then throw (ZodError (zod_too_big 1000) [])
  else ret issue_description.

(** [fetchTenantInfo]: [.eq('auth_user_id', user.id).maybeSingle()];
    more than one row is an error and leaves the state null. *)
Definition fetchTenantInfo (db : DB) (uid : uuid) : option TenantInfo :=
  match filter (fun t => t_auth_user_id t = Some uid) (Schema.select_tenants db uid) with
  | [t] => Some (mkTenantInfo (t_id t) (t_room_no t))
  | _ => None
  end.

Definition RequestSubmitted : Toast :=
  mkToast "Request submitted"
    "Your maintenance request has been submitted successfully." false.

Definition handleSubmit (uid : uuid) (now : Z) (tenantInfo : option TenantInfo)
    (issueDescription : string) : World -> Toast * World :=
  match tenantInfo with
  | None => fun w => (mkToast "Error" "Tenant information not found" true, w)
  | Some info =>
      try_catch
        (await validated <- requestSchema_parse issueDescription ;;
         await error <- supabase_call (CallInsert "maintenance_requests")
                    (Schema.insert_maintenance_request uid now (id info)
                       (room_no info) validated "open") ;;
         match error with
         | Some e => throw (StoreError e)
         | None => ret RequestSubmitted
         end)%client
        (fun error =>
           match error with
           | ZodError first _ => mkToast "Validation error" first true
           | _ => mkToast "Error" "Failed to submit request" true
           end)
  end.

End SubmitRequest.

(** ** MaintenanceManagement.tsx *)

Module MaintenanceManagement.
Import Client.

Inductive Filter := all | open | resolved.

Definition filter_status (f : Filter) : option string :=
  match f with
  | all => None
  | open => Some "open"
  | resolved => Some "resolved"
  end.

(** [fetchRequests]: newest first, narrowed by the filter when it is
    not [all]. *)
Definition fetchRequests (db : DB) (uid : uuid) (f : Filter)
    : list maintenance_request_row :=
  let rows :=
    Schema.order_by (fun a b => mr_created_at b <=? mr_created_at a)
      (Schema.select_maintenance_requests db uid) in
  match filter_status f with
  | Some s => filter (fun r => mr_status r = s) rows
  | None => rows
  end.

Definition RequestResolved : Toast :=
  mkToast "Request resolved"
    "Maintenance request has been marked as resolved." false.

(** [handleResolve]: [client_now] is [new Date().toISOString()]. *)
Definition handleResolve (uid : uuid) (client_now : Z) (id : uuid)
    : World -> Toast * World :=
  try_catch
    (await error <- supabase_call (CallUpdate "maintenance_requests")
                (Schema.update_maintenance_request uid id "resolved" client_now) ;;
     match error with
     | Some e => throw (StoreError e)
     | None => ret RequestResolved
     end)%client
    (fun _ => mkToast "Error" "Failed to update request" true).

Definition openCount (requests : list maintenance_request_row) : nat :=
  length (filter (fun r => mr_status r = "open") requests).

Definition resolvedCount (requests : list maintenance_request_row) : nat :=
  length (filter (fun r => mr_status r = "resolved") requests).

End MaintenanceManagement.

(** ** TenantManagement.tsx *)

Module TenantManagement.
Import Client.

(** The form, after [Number(formData.deposit_amount)]. *)
Record FormData := mkFormData {
  name : string;
  room_no : string;
  contact : string;
  deposit_amount : Z;
  email : string;
  password : string }.

(** The issues of [z.string().min(lo, msg).max(hi)]. *)
Definition string_issues (s : string) (lo : nat) (msg : string) (hi : nat)
    : list string :=
  (if (String.length s <? lo)%nat then [msg] else [])
  ++ (if (hi <? String.length s)%nat then [zod_too_big hi] else []).

Definition TenantAdded (f : FormData) : Toast :=
  mkToast "Tenant added" (name f +:+ " has been added successfully.") false.

Section Handler.
(** Whether zod's [.email()] accepts a text, and whether the error
    object of a store call is an [Error]: both are the libraries'. *)
Variable zod_email : string -> bool.
Variable pg_error_is_Error : bool.

(** [tenantSchema.parse]: the issues of all fields, in the order of
    the schema. *)
Definition tenantSchema_issues (f : FormData) : list string :=
  string_issues (name f) 1 "Name is required" 100
  ++ string_issues (room_no f) 1 "Room number is required" 10
  ++ string_issues (contact f) 10 "Valid contact number required" 15
  ++ (if deposit_amount f <? 0 then ["Deposit must be positive"] else [])
  ++ (if zod_email (email f) then [] else ["Valid email required"])
  ++ (if (String.length (password f) <? 6)%nat
      then ["Password must be at least 6 characters"] else []).

Definition tenantSchema_parse (f : FormData) : M FormData :=
  match tenantSchema_issues f with
  | [] => ret f
  | first :: rest => throw (ZodError first rest)
  end.

(** The toast of the [catch] block. *)
Definition on_error (error : Thrown) : Toast :=
  match error with
  | ZodError first _ => mkToast "Validation error" first true
  | _ =>
      mkToast "Error"
        (if instanceof_Error pg_error_is_Error error
         then thrown_message error
         else "Failed to add tenant")
        true
  end.

(** [handleSubmit], the two inserts being sent as [uid]. *)
Definition handleSubmit (uid : uuid) (now : Z) (formData : FormData)
    : World -> Toast * World :=
  try_catch
    (await validated <- tenantSchema_parse formData ;;
     (* Create auth user for tenant *)
     await authData <- supabase_auth_signUp (email validated) (password validated) ;;
     match authData with
     | inl authError => throw (AuthError authError)
     | inr user =>
         (* Create tenant record *)
         await tenantError <- supabase_call (CallInsert "tenants")
                     (Schema.insert_tenant uid now (name validated)
                        (room_no validated) (contact validated)
                        (deposit_amount validated) (au_id user)) ;;
         match tenantError with
         | Some e => throw (StoreError e)
         | None =>
             (* Assign tenant role *)
             await roleError <- supabase_call (CallInsert "user_roles")
                         (Schema.insert_user_role uid (au_id user) tenant) ;;
             match roleError with
             | Some e => throw (StoreError e)
             | None => ret (TenantAdded validated)
             end
         end
     end)%client
    on_error.

(** The principal the client acts as once [supabase.auth.signUp] has
    answered. supabase-js keeps the session that the answer carries: it
    is the new user when the project signs new users in at once
    ([signUp_returns_session]), and still the caller when the answer
    carries no session, the address having to be confirmed first. *)
Definition session_after_signUp (signUp_returns_session : bool) (uid : uuid)
    (user : auth_user) : uuid :=
  if signUp_returns_session then au_id user else uid.

(** [handleSubmit] with the session followed through the sign-up: the
    two inserts are sent as [session_after_signUp]. [handleSubmit]
    above is the case of a sign-up that returns no session. *)
Definition handleSubmit_session (signUp_returns_session : bool) (uid : uuid)
    (now : Z) (formData : FormData) : World -> Toast * World :=
  try_catch
    (await validated <- tenantSchema_parse formData ;;
     (* Create auth user for tenant *)
     await authData <- supabase_auth_signUp (email validated) (password validated) ;;
     match authData with
     | inl authError => throw (AuthError authError)
     | inr user =>
         let session := session_after_signUp signUp_returns_session uid user in
         (* Create tenant record *)
         await tenantError <- supabase_call (CallInsert "tenants")
                     (Schema.insert_tenant session now (name validated)
                        (room_no validated) (contact validated)
                        (deposit_amount validated) (au_id user)) ;;
         match tenantError with
         | Some e => throw (StoreError e)
         | None =>
             (* Assign tenant role *)
             await roleError <- supabase_call (CallInsert "user_roles")
                         (Schema.insert_user_role session (au_id user) tenant) ;;
             match roleError with
             | Some e => throw (StoreError e)
             | None => ret (TenantAdded validated)
             end
         end
     end)%client
    on_error.
End Handler.

(** [fetchTenants]: every visible tenant, by room. *)
Definition fetchTenants (db : DB) (uid : uuid) : list tenant_row :=
  Schema.order_by (fun a b => String.leb (t_room_no a) (t_room_no b))
    (Schema.select_tenants db uid).

End TenantManagement.

(** ** MyRentHistory.tsx *)

Module MyRentHistory.

(** [fetchPayments]: every visible payment, latest period first. *)
Definition fetchPayments (db : DB) (uid : uuid) : list rent_payment_row :=
  Schema.order_by
    (fun a b => (rp_year b <? rp_year a)
                || ((rp_year b =? rp_year a) && (rp_month b <=? rp_month a)))
    (Schema.select_rent_payments db uid).

Definition totalPaid (payments : list rent_payment_row) : Z :=
  fold_left (fun sum p => sum + rp_amount p) payments 0.

End MyRentHistory.

(** ** Dashboard.tsx *)

Module Dashboard.

(** The component state filled by [fetchAdminData]. *)
Record AdminData := mkAdminData {
  tenants : list tenant_row;
  paidTenants : list uuid;
  openRequests : list maintenance_request_row }.

Definition fetchAdminData (db : DB) (uid : uuid) (selectedMonth selectedYear : Z)
    : AdminData :=
  mkAdminData
    (Schema.select_tenants db uid)
    (rp_tenant_id <$>
       filter (fun p => rp_month p = selectedMonth /\ rp_year p = selectedYear)
         (Schema.select_rent_payments db uid))
    (take 5
       (Schema.order_by (fun a b => mr_created_at b <=? mr_created_at a)
          (filter (fun r => mr_status r = "open")
             (Schema.select_maintenance_requests db uid)))).

Definition fetchTenantData (db : DB) (uid : uuid)
    : list maintenance_request_row :=
  Schema.order_by (fun a b => mr_created_at b <=? mr_created_at a)
    (filter (fun r => mr_status r = "open")
       (Schema.select_maintenance_requests db uid)).

Definition includes (l : list uuid) (x : uuid) : bool :=
  existsb (String.eqb x) l.

Definition dueTenants (d : AdminData) : list tenant_row :=
  filter (fun t => negb (includes (paidTenants d) (t_id t))) (tenants d).

(** The values of the four stat cards of the admin view. *)
Record StatCards := mkStatCards {
  total_tenants : nat;
  rent_paid : nat;
  rent_due : nat;
  open_requests : nat }.

Inductive View :=
| AdminView (cards : StatCards) (due : list tenant_row)
    (requests : list maintenance_request_row)
| TenantView (open_requests : nat) (requests : list maintenance_request_row).

(** What the component renders once loaded; [userRole] comes from the
    auth context and is null when no role was found. *)
Definition Dashboard (userRole : option app_role) (db : DB) (uid : uuid)
    (selectedMonth selectedYear : Z) : View :=
  if bool_decide (userRole = Some admin) then
    let d := fetchAdminData db uid selectedMonth selectedYear in
    AdminView
      (mkStatCards (length (tenants d)) (length (paidTenants d))
         (length (dueTenants d)) (length (openRequests d)))
      (dueTenants d) (openRequests d)
  else
    let requests := fetchTenantData db uid in
    TenantView (length requests) requests.

End Dashboard.

(** ** DashboardLayout.tsx and App.tsx *)

Module DashboardLayout.

Definition adminLinks : list string := ["/"; "/tenants"; "/rent"; "/maintenance"].
Definition tenantLinks : list string := ["/"; "/my-rent"; "/submit-request"].

Definition links (userRole : option app_role) : list string :=
  if bool_decide (userRole = Some admin) then adminLinks else tenantLinks.

(** [isActive]: [location.pathname === link.href]. *)
Definition isActive (pathname href : string) : bool := String.eqb pathname href.

(** The links drawn as active on a location. *)
Definition activeLinks (userRole : option app_role) (pathname : string)
    : list string :=
  filter (fun href => isActive pathname href) (links userRole).

End DashboardLayout.

Module App.

Inductive Rendered := Loading | NavigateAuth | Children.

(** [ProtectedRoute]: only the presence of a signed-in user is tested. *)
Definition ProtectedRoute (user : option auth_user) (loading : bool) : Rendered :=
  if loading then Loading
  else match user with
       | None => NavigateAuth
       | Some _ => Children
       end.

(** The effect at the top of a page reserved to [required]:
    [if (userRole && userRole !== required) navigate('/')]. *)
Definition page_redirects (required : app_role) (userRole : option app_role)
    : bool :=
  match userRole with
  | Some r => negb (bool_decide (r = required))
  | None => false
  end.

(** The pages of [AppRoutes]. *)
Inductive Page :=
| AuthPage
| DashboardPage
| TenantManagementPage
| RentTrackingPage
| MaintenanceManagementPage
| MyRentHistoryPage
| SubmitRequestPage
| NotFoundPage.

(** The [Route] table, paths compared as written (the router's own
    normalisation of a location is not modelled). *)
Definition route (path : string) : Page :=
  if String.eqb path "/auth" then AuthPage
  else if String.eqb path "/" then DashboardPage
  else if String.eqb path "/tenants" then TenantManagementPage
  else if String.eqb path "/rent" then RentTrackingPage
  else if String.eqb path "/maintenance" then MaintenanceManagementPage
  else if String.eqb path "/my-rent" then MyRentHistoryPage
  else if String.eqb path "/submit-request" then SubmitRequestPage
  else NotFoundPage.

(** The routes wrapped in [ProtectedRoute]. *)
Definition protected (p : Page) : bool :=
  match p with
  | AuthPage | NotFoundPage => false
  | _ => true
  end.

(** The role a page's first effect reserves it to. *)
Definition page_role (p : Page) : option app_role :=
  match p with
  | TenantManagementPage | RentTrackingPage | MaintenanceManagementPage => Some admin
  | MyRentHistoryPage | SubmitRequestPage => Some tenant
  | _ => None
  end.

Inductive Visit :=
| Shows (p : Page)
| NavigateTo (path : string).

(** Opening [path], once the session is loaded: the route guard, then
    the page's own guard. *)
Definition visit (user : option auth_user) (userRole : option app_role)
    (path : string) : Visit :=
  let p := route path in
  if protected p then
    match ProtectedRoute user false with
    | Children =>
        match page_role p with
        | Some required =>
            if page_redirects required userRole then NavigateTo "/" else Shows p
        | None => Shows p
        end
    | _ => NavigateTo "/auth"
    end
  else Shows p.

(** ** The application as a transition system: one step per handler
    that writes to the store. *)
Inductive Op :=
| SubmitRequest (uid : uuid) (now : Z)
    (tenantInfo : option SubmitRequest.TenantInfo) (issueDescription : string)
| ResolveRequest (uid : uuid) (client_now : Z) (id : uuid)
| RecordPayment (uid : uuid) (now : Z) (formData : RentTracking.FormData)
| AddTenant (uid : uuid) (now : Z) (formData : TenantManagement.FormData).

Section Steps.
Variable zod_email : string -> bool.
Variable pg_error_is_Error : bool.

Definition step (w : World) (op : Op) : World :=
  match op with
  | SubmitRequest uid now info s =>
      snd (SubmitRequest.handleSubmit uid now info s w)
  | ResolveRequest uid client_now id =>
      snd (MaintenanceManagement.handleResolve uid client_now id w)
  | RecordPayment uid now f =>
      snd (RentTracking.handleSubmit pg_error_is_Error uid now f w)
  | AddTenant uid now f =>
      snd (TenantManagement.handleSubmit zod_email pg_error_is_Error uid now f w)
  end.

Definition run (ops : list Op) (w : World) : World := fold_left step ops w.
End Steps.

(** The clock reading an operation carries. *)
Definition op_clock (op : Op) : Z :=
  match op with
  | SubmitRequest _ now _ _ => now
  | ResolveRequest _ client_now _ => client_now
  | RecordPayment _ now _ => now
  | AddTenant _ now _ => now
  end.

(** The signed-in principal an operation is issued by. *)
Definition op_uid (op : Op) : uuid :=
  match op with
  | SubmitRequest uid _ _ _ => uid
  | ResolveRequest uid _ _ => uid
  | RecordPayment uid _ _ => uid
  | AddTenant uid _ _ => uid
  end.

(** No reading is earlier than the one before it, starting from [t]. *)
Fixpoint clock_monotone (t : Z) (ops : list Op) : Prop :=
  match ops with
  | [] => True
  | op :: ops' => t <= op_clock op /\ clock_monotone (op_clock op) ops'
  end.

End App.

(** ** The period selectors *)

(** [MONTHS], the same table in Dashboard, RentTracking and
    MyRentHistory. *)
Definition MONTHS : list string :=
  ["January"; "February"; "March"; "April"; "May"; "June";
   "July"; "August"; "September"; "October"; "November"; "December"].

(** [MONTHS[month - 1]], undefined outside the table. *)
Definition month_name (month : Z) : option string :=
  if month - 1 <? 0 then None else MONTHS !! Z.to_nat (month - 1).

(** The values of the month selector: [index + 1] for each entry of
    [MONTHS]. *)
Definition month_options : list Z :=
  imap (fun index _ => Z.of_nat index + 1) MONTHS.

(** [Array.from({ length: 5 }, (_, i) => new Date().getFullYear() - i)] *)
Definition years (currentYear : Z) : list Z :=
  (fun i : nat => currentYear - Z.of_nat i) <$> seq 0 5.

(** ** Row predicates used by the properties *)

(** The ranges the schema checks on a payment: month, year, and the
    width of the amount column. *)
Definition payment_in_range (r : rent_payment_row) : Prop :=
  1 <= rp_month r <= 12 /\ 2000 <= rp_year r <= 2100
  /\ - 10 ^ 10 < rp_amount r < 10 ^ 10.

(** The row a request becomes when it is resolved at time [t]. *)
Definition resolved_at_time (r : maintenance_request_row) (t : Z)
    : maintenance_request_row :=
  mk_maintenance_request (mr_id r) (mr_tenant_id r) (mr_room_no r)
    (mr_issue_description r) "resolved" (mr_created_at r) (Some t).

(** [resolved_at] is set exactly on the resolved rows. *)
Definition resolved_iff_timestamped (r : maintenance_request_row) : Prop :=
  mr_resolved_at r <> None <-> mr_status r = "resolved".

(** A resolution is not dated before the creation. *)
Definition resolved_after_created (r : maintenance_request_row) : Prop :=
  forall t, mr_resolved_at r = Some t -> mr_created_at r <= t.

(** Created no later than [t], and resolved no earlier than created. *)
Definition dated_before (t : Z) (r : maintenance_request_row) : Prop :=
  mr_created_at r <= t /\ resolved_after_created r.

(** The store in which principal [uid] has, in addition, the role
    tenant. *)
Definition with_tenant_role (db : DB) (uid : uuid) : DB :=
  Schema.with_user_roles db (user_roles db ++ [mk_user_role uid tenant]).

(** The columns of [UNIQUE (tenant_id, month, year)]. *)
Definition payment_key (r : rent_payment_row) : uuid * Z * Z :=
  (rp_tenant_id r, rp_month r, rp_year r).

(** The values [CHECK (status IN ('open', 'resolved'))] allows. *)
Definition status_valid (r : maintenance_request_row) : Prop :=
  mr_status r = "open" \/ mr_status r = "resolved".

(** No identifier the sequence has yet to produce names a tenant. *)
Definition tenant_ids_fresh (db : DB) : Prop :=
  forall n : N, (uuid_seq db <= n)%N -> pretty n ∉ (t_id <$> tenants db).

(** What the keys and constraints of the schema keep true of tenants
    and payments: distinct tenant ids, one payment per tenant, month
    and year, and every payment owned by a tenant. *)
Definition ledger_consistent (db : DB) : Prop :=
  NoDup (t_id <$> tenants db)
  /\ tenant_ids_fresh db
  /\ NoDup (payment_key <$> rent_payments db)
  /\ (forall p, p ∈ rent_payments db -> rp_tenant_id p ∈ t_id <$> tenants db).

(** Newest first. *)
Definition newer_first (a b : maintenance_request_row) : Prop :=
  mr_created_at b <= mr_created_at a.

(** Latest period first: by year, then by month. *)
Definition later_period_first (a b : rent_payment_row) : Prop :=
  rp_year b < rp_year a \/ (rp_year b = rp_year a /\ rp_month b <= rp_month a).

(** The open rows with a given id. *)
Definition open_with_id (id : uuid) (l : list maintenance_request_row)
    : list maintenance_request_row :=
  filter (fun r => mr_id r = id /\ mr_status r = "open") l.

(** ** Sample data: the scenarios of the specification *)

Module Scenario.

Definition admin_uid : uuid := "uid-admin".
Definition uid_A : uuid := "uid-A".
Definition uid_B : uuid := "uid-B".

Definition tenant_A : tenant_row :=
  mk_tenant "A" "Asha" "101" "9876543210" 1000000 (Some uid_A) 1000.
Definition tenant_B : tenant_row :=
  mk_tenant "B" "Bala" "102" "9876543211" 1000000 (Some uid_B) 1001.

(** An admin and two provisioned tenants; no payment, no request. *)
Definition db0 : DB :=
  mkDB 7
    [mk_auth_user admin_uid "admin@pg.example";
     mk_auth_user uid_A "asha@pg.example";
     mk_auth_user uid_B "bala@pg.example"]
    [mk_profile admin_uid None; mk_profile uid_A None; mk_profile uid_B None]
    [mk_user_role admin_uid admin; mk_user_role uid_A tenant;
     mk_user_role uid_B tenant]
    [tenant_A; tenant_B] [] [].

Definition w0 : World := mkWorld db0 [].

(** Rent of March 2024 for tenant A, 5000.00. *)
Definition march_A : RentTracking.FormData :=
  RentTracking.mkFormData "A" 3 2024 500000 19800.

(** The same period, with a negative amount. *)
Definition march_A_negative : RentTracking.FormData :=
  RentTracking.mkFormData "A" 3 2024 (-500000) 19800.

(** The store once that payment is recorded. *)
Definition db1 : DB :=
  store (RentTracking.handleSubmit true admin_uid 5000 march_A w0).2.

Definition text_of_length (n : nat) : string :=
  String.string_of_list_ascii (repeat (Ascii.ascii_of_nat 120) n).

Definition info_A : SubmitRequest.TenantInfo :=
  SubmitRequest.mkTenantInfo "A" "101".

(** Tenant A submits a request of ten characters at time [now]. *)
Definition submit_at (w : World) (now : Z) : World :=
  (SubmitRequest.handleSubmit uid_A now (Some info_A) (text_of_length 10) w).2.

(** Six open requests of tenant A, submitted one after the other. *)
Definition w6 : World :=
  fold_left submit_at [2000; 2001; 2002; 2003; 2004; 2005] w0.


(** zod's [.email()] on the one address the scenario submits. *)
Definition zod_email (s : string) : bool := String.eqb s "carl@pg.example".


(** A request of tenant A created when the store's clock reads 100,
    resolved by the admin when the browser's clock reads 50. *)
Definition resolved_with_slow_clock : list App.Op :=
  [App.SubmitRequest uid_A 100 (Some info_A) (text_of_length 10);
   App.ResolveRequest admin_uid 50 "7"].

(** The same, with the browser's clock reading 150. *)
Definition resolved_in_order : list App.Op :=
  [App.SubmitRequest uid_A 100 (Some info_A) (text_of_length 10);
   App.ResolveRequest admin_uid 150 "7"].

(** A signed-in principal for whom no role was found. *)
Definition newcomer : auth_user := mk_auth_user "uid-new" "new@pg.example".

(** A store in which that principal is linked to a tenant record and
    has no row in [user_roles]. *)
Definition db_newcomer : DB :=
  mkDB 9 (auth_users db0 ++ [newcomer])
    (profiles db0 ++ [mk_profile "uid-new" None]) (user_roles db0)
    (tenants db0 ++
     [mk_tenant "8" "Nila" "104" "9876543213" 0 (Some "uid-new") 1002])
    [] [].

(** A store whose tenants were provisioned through the application:
    their ids come from the sequence. *)
Definition db_seeded : DB :=
  mkDB 7
    [mk_auth_user admin_uid "admin@pg.example";
     mk_auth_user "3" "asha@pg.example";
     mk_auth_user "5" "bala@pg.example"]
    [mk_profile admin_uid None; mk_profile "3" None; mk_profile "5" None]
    [mk_user_role admin_uid admin; mk_user_role "3" tenant;
     mk_user_role "5" tenant]
    [mk_tenant "4" "Asha" "101" "9876543210" 1000000 (Some "3") 1000;
     mk_tenant "6" "Bala" "102" "9876543211" 1000000 (Some "5") 1001]
    [] [].

(** A new tenant with a deposit of 5000.00. *)
Definition dev_form : TenantManagement.FormData :=
  TenantManagement.mkFormData "Carl" "103" "9876543212" 500000
    "carl@pg.example" "secret1".

(** A month of work of the admin: a payment, a tenant added, a
    payment for the new tenant, the first payment entered again, a
    request of a tenant, its resolution. *)
Definition a_month : list App.Op :=
  [App.RecordPayment admin_uid 2000 (RentTracking.mkFormData "4" 3 2024 500000 19800);
   App.AddTenant admin_uid 2001 dev_form;
   App.RecordPayment admin_uid 2002 (RentTracking.mkFormData "9" 3 2024 450000 19801);
   App.RecordPayment admin_uid 2003 (RentTracking.mkFormData "4" 3 2024 500000 19802);
   App.SubmitRequest "3" 2004
     (Some (SubmitRequest.mkTenantInfo "4" "101")) (text_of_length 12);
   App.ResolveRequest admin_uid 2005 "11"].

Definition w_month : World :=
  App.run zod_email false a_month (mkWorld db_seeded []).

End Scenario.

(** * Properties *)

(** ** Lists, ordering and membership *)

Lemma existsb_eqb_elem_of (l : list uuid) (x : uuid) :
  existsb (String.eqb x) l = true <-> x ∈ l.
Proof.
  rewrite existsb_exists, list_elem_of_In. split.
  - intros (y & Hy & Heq). apply String.eqb_eq in Heq. by subst.
  - intros Hx. exists x. split; [done | apply String.eqb_refl].
Qed.

Lemma insert_sorted_Permutation {A} (le : A -> A -> bool) x l :
  Schema.insert_sorted le x l ≡ₚ x :: l.
Proof.
  induction l as [|y l IH]; simpl; [done|].
  destruct (le x y); [done|]. rewrite IH. apply Permutation_swap.
Qed.

Lemma order_by_Permutation {A} (le : A -> A -> bool) l :
  Schema.order_by le l ≡ₚ l.
Proof.
  induction l as [|x l IH]; simpl; [done|].
  by rewrite insert_sorted_Permutation, IH.
Qed.

Lemma order_by_length {A} (le : A -> A -> bool) l :
  length (Schema.order_by le l) = length l.
Proof. by rewrite order_by_Permutation. Qed.

Lemma order_by_elem_of {A} (le : A -> A -> bool) l x :
  x ∈ Schema.order_by le l <-> x ∈ l.
Proof. by rewrite order_by_Permutation. Qed.

Lemma filter_all {A} (P : A -> Prop) `{!forall x, Decision (P x)} (l : list A) :
  (forall x, x ∈ l -> P x) -> filter P l = l.
Proof.
  induction l as [|x l IH]; intros HP; [done|].
  rewrite filter_cons_True by (apply HP; left).
  f_equal. apply IH. intros y Hy. apply HP. by right.
Qed.

(** ** What an admin sees: every row *)

Lemma admin_select_tenants db uid :
  Schema.has_role db uid admin = true ->
  Schema.select_tenants db uid = tenants db.
Proof.
  intros Hadm. apply filter_all. intros t _.
  unfold Schema.tenants_select_policy. by rewrite Hadm.
Qed.

Lemma admin_select_rent_payments db uid :
  Schema.has_role db uid admin = true ->
  Schema.select_rent_payments db uid = rent_payments db.
Proof.
  intros Hadm. apply filter_all. intros r _.
  unfold Schema.rent_payments_select_policy. by rewrite Hadm.
Qed.

Lemma admin_select_maintenance_requests db uid :
  Schema.has_role db uid admin = true ->
  Schema.select_maintenance_requests db uid = maintenance_requests db.
Proof.
  intros Hadm. apply filter_all. intros r _.
  unfold Schema.maintenance_requests_select_policy. by rewrite Hadm.
Qed.

(** ** Due tenants *)

Lemma due_iff_not_paid (l : list tenant_row) (paid : list uuid) (t : tenant_row) :
  t ∈ filter (fun t => negb (existsb (String.eqb (t_id t)) paid)) l
  <-> t ∈ l /\ t_id t ∉ paid.
Proof.
  rewrite list_elem_of_filter, <- existsb_eqb_elem_of.
  destruct (existsb (String.eqb (t_id t)) paid); simpl; naive_solver.
Qed.

Lemma paid_in_period (rows : list rent_payment_row) (m y : Z) (i : uuid) :
  i ∈ rp_tenant_id <$> filter (fun p => rp_month p = m /\ rp_year p = y) rows
  <-> exists p, p ∈ rows /\ rp_tenant_id p = i /\ rp_month p = m /\ rp_year p = y.
Proof.
  rewrite list_elem_of_fmap. split.
  - intros (p & -> & Hp). apply list_elem_of_filter in Hp. naive_solver.
  - intros (p & Hp & <- & Hm & Hy). exists p. split; [done|].
    apply list_elem_of_filter. naive_solver.
Qed.

(** C3. On the admin dashboard and on the rent page, a fetched tenant
    is listed as due for the selected month and year exactly when the
    store holds no payment of that tenant for that month and year; with
    no tenant and no payment in the store, the counts are zero. *)
Theorem dueTenants_iff_no_payment (db : DB) (uid : uuid) (m y : Z) :
  Schema.has_role db uid admin = true ->
  let d := Dashboard.fetchAdminData db uid m y in
  let fd := RentTracking.fetchData db uid m y in
  (forall t, t ∈ Dashboard.tenants d ->
     (t ∈ Dashboard.dueTenants d <->
      ~ exists p, p ∈ rent_payments db /\ rp_tenant_id p = t_id t
                  /\ rp_month p = m /\ rp_year p = y))
  /\ (forall t, t ∈ fd.1 ->
     (t ∈ RentTracking.unpaidTenants fd.1 fd.2 <->
      ~ exists p, p ∈ rent_payments db /\ rp_tenant_id p = t_id t
                  /\ rp_month p = m /\ rp_year p = y))
  /\ (tenants db = [] -> rent_payments db = [] ->
      Dashboard.dueTenants d = []
      /\ length (Dashboard.tenants d) = 0%nat
      /\ length (Dashboard.paidTenants d) = 0%nat
      /\ RentTracking.unpaidTenants fd.1 fd.2 = []
      /\ length fd.1 = 0%nat /\ length fd.2 = 0%nat).
Proof.
  intros Hadm d fd. split; [|split].
  - intros t Ht. unfold Dashboard.dueTenants, Dashboard.includes.
    rewrite due_iff_not_paid. subst d. simpl in *.
    rewrite paid_in_period, admin_select_rent_payments by done. naive_solver.
  - intros t Ht. unfold RentTracking.unpaidTenants, RentTracking.includes.
    rewrite due_iff_not_paid. subst fd. simpl in *.
    unfold RentTracking.paidTenantIds. rewrite list_elem_of_fmap.
    split.
    + intros [_ Hno] (p & Hp & Hid & Hm & Hy). apply Hno. exists p.
      split; [done|]. rewrite order_by_elem_of, list_elem_of_filter.
      by rewrite admin_select_rent_payments.
    + intros Hno. split; [done|]. intros (p & Hid & Hp). apply Hno.
      rewrite order_by_elem_of, list_elem_of_filter in Hp.
      rewrite admin_select_rent_payments in Hp by done. naive_solver.
  - intros Ht Hp. subst d fd. unfold Dashboard.dueTenants, RentTracking.fetchData.
    simpl. rewrite !admin_select_tenants, !admin_select_rent_payments by done.
    rewrite Ht, Hp. done.
Qed.

(** C3, on the scenario of the specification: with a payment of A for
    March 2024 and tenants A and B, the tenant due is B. *)
Lemma dueTenants_iff_no_payment_witness :
  Schema.has_role Scenario.db1 Scenario.admin_uid admin = true
  /\ (Scenario.tenant_B ∈ Dashboard.dueTenants
        (Dashboard.fetchAdminData Scenario.db1 Scenario.admin_uid 3 2024)
      <-> ~ exists p, p ∈ rent_payments Scenario.db1
                      /\ rp_tenant_id p = t_id Scenario.tenant_B
                      /\ rp_month p = 3 /\ rp_year p = 2024).
Proof.
  split; [reflexivity|].
  apply (dueTenants_iff_no_payment Scenario.db1 Scenario.admin_uid 3 2024);
    [reflexivity|].
  vm_compute. right. left.
Defined.

(** ** Counting paid and due tenants *)

Lemma length_paid_tenants (l : list tenant_row) (paid : list uuid) :
  NoDup (t_id <$> l) -> NoDup paid ->
  (forall i, i ∈ paid -> i ∈ t_id <$> l) ->
  length (filter (fun t => existsb (String.eqb (t_id t)) paid) l) = length paid.
Proof.
  intros Hl Hpaid Hsub.
  rewrite <- (length_fmap t_id (filter _ l)).
  apply Permutation_length, NoDup_Permutation; [|done|].
  - eapply sublist_NoDup; [exact Hl|]. apply fmap_sublist, sublist_filter.
  - intros i. rewrite list_elem_of_fmap. split.
    + intros (t & -> & Ht). apply list_elem_of_filter in Ht as [Hin _].
      apply existsb_eqb_elem_of. by apply Is_true_true.
    + intros Hi. pose proof (Hsub i Hi) as Ht.
      apply list_elem_of_fmap in Ht as (t & -> & Ht).
      exists t. split; [done|]. apply list_elem_of_filter. split; [|done].
      apply Is_true_true. by apply existsb_eqb_elem_of.
Qed.

Lemma length_paid_plus_due (l : list tenant_row) (paid : list uuid) :
  NoDup (t_id <$> l) -> NoDup paid ->
  (forall i, i ∈ paid -> i ∈ t_id <$> l) ->
  length l
  = (length paid
     + length (filter (fun t => negb (existsb (String.eqb (t_id t)) paid)) l))%nat.
Proof.
  intros Hl Hpaid Hsub.
  rewrite <- (length_paid_tenants l paid) by done.
  rewrite <- length_app.
  rewrite <- (filter_app_complement
                (fun t => existsb (String.eqb (t_id t)) paid) l) at 1.
  rewrite !length_app. f_equal. f_equal.
  apply list_filter_iff. intros t.
  destruct (existsb (String.eqb (t_id t)) paid); simpl; naive_solver.
Qed.

(** C10. When the tenants have pairwise distinct ids, and the payments
    of the selected period pairwise distinct tenant ids that all belong
    to tenants of the list, the number of tenants is the number of
    payments plus the number of due tenants, on the rent page (Paid,
    Due) and on the dashboard (Rent Paid, Rent Due). *)
Theorem total_is_paid_plus_due (l : list tenant_row)
    (payments : list rent_payment_row)
    (requests : list maintenance_request_row) :
  NoDup (t_id <$> l) ->
  NoDup (rp_tenant_id <$> payments) ->
  (forall p, p ∈ payments -> rp_tenant_id p ∈ t_id <$> l) ->
  length l
  = (length payments + length (RentTracking.unpaidTenants l payments))%nat
  /\ (let d := Dashboard.mkAdminData l (rp_tenant_id <$> payments) requests in
      length (Dashboard.tenants d)
      = (length (Dashboard.paidTenants d) + length (Dashboard.dueTenants d))%nat).
Proof.
  intros Hl Hp Hsub.
  assert (Hsub' : forall i, i ∈ rp_tenant_id <$> payments -> i ∈ t_id <$> l).
  { intros i (p & -> & Hin)%list_elem_of_fmap. by apply Hsub. }
  pose proof (length_paid_plus_due l (rp_tenant_id <$> payments) Hl Hp Hsub') as H.
  split.
  - rewrite <- (length_fmap rp_tenant_id payments). exact H.
  - exact H.
Qed.

(** C10 on the scenario: two tenants, one payment, one tenant due. *)
Lemma total_is_paid_plus_due_witness :
  length (tenants Scenario.db1)
  = (length (rent_payments Scenario.db1)
     + length (RentTracking.unpaidTenants (tenants Scenario.db1)
                 (rent_payments Scenario.db1)))%nat
  /\ length (RentTracking.unpaidTenants (tenants Scenario.db1)
               (rent_payments Scenario.db1)) = 1%nat.
Proof.
  split; [|reflexivity].
  apply (total_is_paid_plus_due (tenants Scenario.db1)
           (rent_payments Scenario.db1) []).
  - refine (bool_decide_unpack _ _). vm_compute. exact I.
  - refine (bool_decide_unpack _ _). vm_compute. exact I.
  - intros p Hp. vm_compute in Hp. apply list_elem_of_singleton in Hp as ->.
    vm_compute. left.
Defined.

(** ** The Open Requests card *)

Lemma open_requests_card_is_min (db : DB) (uid : uuid) (m y : Z) :
  Schema.has_role db uid admin = true ->
  length (Dashboard.openRequests (Dashboard.fetchAdminData db uid m y))
  = Nat.min 5 (MaintenanceManagement.openCount (maintenance_requests db)).
Proof.
  intros Hadm. unfold Dashboard.fetchAdminData, MaintenanceManagement.openCount.
  simpl. rewrite length_take, order_by_length.
  by rewrite admin_select_maintenance_requests.
Qed.

(** C5, evaluated with six open requests in the store: the maintenance
    page counts six open requests, the Open Requests card of the admin
    dashboard shows five. *)
Theorem open_requests_card_shows_five_of_six :
  MaintenanceManagement.openCount (maintenance_requests (store Scenario.w6)) = 6%nat
  /\ MaintenanceManagement.openCount
       (MaintenanceManagement.fetchRequests (store Scenario.w6)
          Scenario.admin_uid MaintenanceManagement.all) = 6%nat
  /\ exists cards due requests,
       Dashboard.Dashboard (Some admin) (store Scenario.w6) Scenario.admin_uid 3 2024
       = Dashboard.AdminView cards due requests
       /\ Dashboard.open_requests cards = 5%nat.
Proof.
  split; [reflexivity|]. split; [reflexivity|].
  eexists _, _, _. split; [vm_compute; reflexivity | reflexivity].
Qed.

(** ** Validation of a maintenance request *)

(** C4. A description is checked against the interval [10, 1000]
    before any write: within it the schema accepts the text and the
    insert is issued; outside it (9 or 1001 characters, say) the
    handler ends with the validation toast, and neither the store nor
    the log of issued writes has changed. *)
Theorem issue_description_length_checked (uid : uuid) (now : Z)
    (info : SubmitRequest.TenantInfo) (s : string) (w : World) :
  let n := String.length s in
  let r := SubmitRequest.handleSubmit uid now (Some info) s w in
  if bool_decide (10 <= n <= 1000)%nat
  then SubmitRequest.requestSchema_parse s w = (inr s, w)
       /\ calls r.2 = calls w ++ [CallInsert "maintenance_requests"]
  else (exists msg, r.1 = mkToast "Validation error" msg true) /\ r.2 = w.
Proof.
  intros n r. subst r.
  unfold SubmitRequest.handleSubmit, Client.try_catch, Client.bind,
    SubmitRequest.requestSchema_parse.
  fold n. case_bool_decide as Hn.
  - destruct (Nat.ltb_spec n 10) as [?|_]; [lia|].
    destruct (Nat.ltb_spec 1000 n) as [?|_]; [lia|].
    split; [done|]. unfold Client.ret, Client.supabase_call.
    destruct (Schema.insert_maintenance_request _ _ _ _ _ _ _); done.
  - destruct (Nat.ltb_spec n 10) as [?|?]; [by eauto|].
    destruct (Nat.ltb_spec 1000 n) as [?|?]; [by eauto|lia].
Qed.

(** The four boundary lengths of C4, on the scenario. *)
Example issue_description_boundaries :
  let submit n :=
    SubmitRequest.handleSubmit Scenario.uid_A 2000 (Some Scenario.info_A)
      (Scenario.text_of_length n) Scenario.w0 in
  (submit 9%nat).2 = Scenario.w0
  /\ title (submit 9%nat).1 = "Validation error"
  /\ (submit 10%nat).1 = SubmitRequest.RequestSubmitted
  /\ calls (submit 10%nat).2 = [CallInsert "maintenance_requests"]
  /\ (submit 1000%nat).1 = SubmitRequest.RequestSubmitted
  /\ calls (submit 1000%nat).2 = [CallInsert "maintenance_requests"]
  /\ (submit 1001%nat).2 = Scenario.w0
  /\ title (submit 1001%nat).1 = "Validation error".
Proof. vm_compute. repeat split. Qed.

(** ** The rent ledger *)

Lemma numeric_10_2_fits_iff (v : Z) :
  Schema.numeric_10_2_fits v = true <-> - 10 ^ 10 < v < 10 ^ 10.
Proof. unfold Schema.numeric_10_2_fits. rewrite Z.ltb_lt. lia. Qed.

Lemma month_check_iff (m : Z) : (1 <=? m) && (m <=? 12) = true <-> 1 <= m <= 12.
Proof. rewrite andb_true_iff, !Z.leb_le. lia. Qed.

Lemma year_check_iff (y : Z) :
  (2000 <=? y) && (y <=? 2100) = true <-> 2000 <= y <= 2100.
Proof. rewrite andb_true_iff, !Z.leb_le. lia. Qed.

Section RentLedger.
Variable pg_error_is_Error : bool.

Abbreviation handleSubmit := (RentTracking.handleSubmit pg_error_is_Error).

(** A payment that passes every check is appended. *)
Lemma record_payment_accepted uid now f w :
  Schema.has_role (store w) uid admin = true ->
  Schema.tenant_exists (store w) (RentTracking.tenant_id f) = true ->
  1 <= RentTracking.month f <= 12 ->
  2000 <= RentTracking.year f <= 2100 ->
  Schema.numeric_10_2_fits (RentTracking.amount f) = true ->
  Schema.payment_recorded (store w) (RentTracking.tenant_id f)
    (RentTracking.month f) (RentTracking.year f) = false ->
  handleSubmit uid now f w
  = (RentTracking.PaymentRecorded,
     mkWorld
       (Schema.with_rent_payments (Schema.gen_random_uuid (store w)).2
          (rent_payments (store w) ++
           [mk_rent_payment (pretty (uuid_seq (store w)))
              (RentTracking.tenant_id f) (RentTracking.month f)
              (RentTracking.year f) (RentTracking.amount f)
              (RentTracking.paid_on f) now]))
       (calls w ++ [CallInsert "rent_payments"])).
Proof.
  intros Hadm Hten Hm Hy Hfit Hnew.
  apply month_check_iff in Hm. apply year_check_iff in Hy.
  unfold RentTracking.handleSubmit, Client.try_catch, Client.bind,
    Client.supabase_call, Schema.insert_rent_payment,
    Schema.rent_payments_write_policy.
  by rewrite Hfit, Hadm, Hm, Hy, Hnew, Hten.
Qed.

(** A payment for a recorded (tenant, month, year) ends with the
    duplicate toast and leaves the store as it was. *)
Lemma record_payment_duplicate uid now f w :
  Schema.has_role (store w) uid admin = true ->
  1 <= RentTracking.month f <= 12 ->
  2000 <= RentTracking.year f <= 2100 ->
  Schema.numeric_10_2_fits (RentTracking.amount f) = true ->
  Schema.payment_recorded (store w) (RentTracking.tenant_id f)
    (RentTracking.month f) (RentTracking.year f) = true ->
  handleSubmit uid now f w
  = (RentTracking.DuplicatePayment,
     mkWorld (store w) (calls w ++ [CallInsert "rent_payments"])).
Proof.
  intros Hadm Hm Hy Hfit Hdup.
  apply month_check_iff in Hm. apply year_check_iff in Hy.
  unfold RentTracking.handleSubmit, Client.try_catch, Client.bind,
    Client.supabase_call, Schema.insert_rent_payment,
    Schema.rent_payments_write_policy.
  by rewrite Hfit, Hadm, Hm, Hy, Hdup.
Qed.

(** What the handler can do to the store: nothing, or append the
    submitted row, and then the row passed every check. *)
Lemma record_payment_cases uid now f w :
  let r := handleSubmit uid now f w in
  (r.1 <> RentTracking.PaymentRecorded /\ store r.2 = store w)
  \/ (r.1 = RentTracking.PaymentRecorded
      /\ 1 <= RentTracking.month f <= 12
      /\ 2000 <= RentTracking.year f <= 2100
      /\ - 10 ^ 10 < RentTracking.amount f < 10 ^ 10
      /\ store r.2
         = Schema.with_rent_payments (Schema.gen_random_uuid (store w)).2
             (rent_payments (store w) ++
              [mk_rent_payment (pretty (uuid_seq (store w)))
                 (RentTracking.tenant_id f) (RentTracking.month f)
                 (RentTracking.year f) (RentTracking.amount f)
                 (RentTracking.paid_on f) now])).
Proof.
  unfold RentTracking.handleSubmit, Client.try_catch, Client.bind,
    Client.supabase_call, Schema.insert_rent_payment.
  destruct (Schema.numeric_10_2_fits (RentTracking.amount f)) eqn:Hfit;
    simpl; [|by left].
  destruct (Schema.rent_payments_write_policy (store w) uid); simpl; [|by left].
  destruct ((1 <=? RentTracking.month f) && (RentTracking.month f <=? 12))
    eqn:Hm; simpl; [|by left].
  destruct ((2000 <=? RentTracking.year f) && (RentTracking.year f <=? 2100))
    eqn:Hy; simpl; [|by left].
  destruct (Schema.payment_recorded _ _ _ _); simpl; [by left|].
  destruct (Schema.tenant_exists _ _); simpl; [|by left].
  right. apply month_check_iff in Hm. apply year_check_iff in Hy.
  apply numeric_10_2_fits_iff in Hfit. done.
Qed.
End RentLedger.

Lemma payment_recorded_app db tenant_id m y rows row :
  rp_tenant_id row = tenant_id -> rp_month row = m -> rp_year row = y ->
  Schema.payment_recorded
    (Schema.with_rent_payments db (rows ++ [row])) tenant_id m y = true.
Proof.
  intros <- <- <-. unfold Schema.payment_recorded. simpl.
  rewrite existsb_app. simpl.
  by rewrite String.eqb_refl, !Z.eqb_refl, orb_true_r.
Qed.

(** C1. For an admin, a payment that is valid (known tenant, month and
    year in range, amount within the column) for a tenant, month and
    year not yet recorded is accepted and appended; any later payment
    for the same tenant, month and year ends with the duplicate-payment
    toast, whatever the client library makes of store errors, and
    leaves the store unchanged. *)
Theorem recordPayment_once_then_duplicate (pg_error_is_Error : bool)
    (uid : uuid) (now : Z) (f : RentTracking.FormData) (w : World) :
  Schema.has_role (store w) uid admin = true ->
  Schema.tenant_exists (store w) (RentTracking.tenant_id f) = true ->
  1 <= RentTracking.month f <= 12 ->
  2000 <= RentTracking.year f <= 2100 ->
  Schema.numeric_10_2_fits (RentTracking.amount f) = true ->
  Schema.payment_recorded (store w) (RentTracking.tenant_id f)
    (RentTracking.month f) (RentTracking.year f) = false ->
  let r1 := RentTracking.handleSubmit pg_error_is_Error uid now f w in
  r1.1 = RentTracking.PaymentRecorded
  /\ rent_payments (store r1.2)
     = rent_payments (store w) ++
       [mk_rent_payment (pretty (uuid_seq (store w)))
          (RentTracking.tenant_id f) (RentTracking.month f)
          (RentTracking.year f) (RentTracking.amount f)
          (RentTracking.paid_on f) now]
  /\ forall now2 f2,
       RentTracking.tenant_id f2 = RentTracking.tenant_id f ->
       RentTracking.month f2 = RentTracking.month f ->
       RentTracking.year f2 = RentTracking.year f ->
       Schema.numeric_10_2_fits (RentTracking.amount f2) = true ->
       let r2 := RentTracking.handleSubmit pg_error_is_Error uid now2 f2 r1.2 in
       r2.1 = RentTracking.DuplicatePayment /\ store r2.2 = store r1.2.
Proof.
  intros Hadm Hten Hm Hy Hfit Hnew r1. subst r1.
  rewrite (record_payment_accepted pg_error_is_Error uid now f w) by done.
  simpl. split; [done|]. split; [done|].
  intros now2 f2 E1 E2 E3 Hfit2.
  rewrite record_payment_duplicate; simpl; try done; try congruence.
  by apply payment_recorded_app.
Qed.

(** C1 on the scenario: March 2024 of tenant A, recorded twice. *)
Lemma recordPayment_once_then_duplicate_witness :
  let r1 := RentTracking.handleSubmit false Scenario.admin_uid 5000
              Scenario.march_A Scenario.w0 in
  let r2 := RentTracking.handleSubmit false Scenario.admin_uid 6000
              Scenario.march_A r1.2 in
  r1.1 = RentTracking.PaymentRecorded
  /\ r2.1 = RentTracking.DuplicatePayment /\ store r2.2 = store r1.2.
Proof.
  intros r1 r2.
  destruct (recordPayment_once_then_duplicate false Scenario.admin_uid 5000
              Scenario.march_A Scenario.w0) as (H1 & _ & H2);
    [reflexivity | reflexivity | simpl; lia | simpl; lia
    | reflexivity | reflexivity |].
  split; [exact H1|].
  apply (H2 6000 Scenario.march_A); reflexivity.
Defined.

(** ** What each handler leaves untouched *)

Ltac unfold_client :=
  unfold Client.try_catch, Client.bind, Client.supabase_call,
    Client.supabase_auth_signUp, Client.throw, Client.ret in *.

Ltac unfold_store :=
  unfold Schema.insert_rent_payment, Schema.insert_maintenance_request,
    Schema.update_maintenance_request, Schema.insert_tenant,
    Schema.insert_user_role, Schema.auth_signUp, Schema.gen_random_uuid in *.

(** Every path through a handler, one goal per path. *)
Ltac handler_paths :=
  unfold_client; unfold_store; repeat case_match; simplify_eq; simpl in *.

Lemma submit_request_rent_payments uid now info s w :
  rent_payments (store (SubmitRequest.handleSubmit uid now info s w).2)
  = rent_payments (store w).
Proof.
  unfold SubmitRequest.handleSubmit, SubmitRequest.requestSchema_parse.
  handler_paths; done.
Qed.

Lemma resolve_request_rent_payments uid client_now id w :
  rent_payments (store (MaintenanceManagement.handleResolve uid client_now id w).2)
  = rent_payments (store w).
Proof. unfold MaintenanceManagement.handleResolve. handler_paths; done. Qed.

Lemma add_tenant_rent_payments zod_email b uid now f w :
  rent_payments (store (TenantManagement.handleSubmit zod_email b uid now f w).2)
  = rent_payments (store w).
Proof.
  unfold TenantManagement.handleSubmit, TenantManagement.tenantSchema_parse.
  handler_paths; done.
Qed.

Lemma step_keeps_payments_in_range zod_email b w op :
  Forall payment_in_range (rent_payments (store w)) ->
  Forall payment_in_range (rent_payments (store (App.step zod_email b w op))).
Proof.
  intros Hw.
  destruct op as [uid now info s|uid c id|uid now f|uid now f]; unfold App.step.
  - by rewrite submit_request_rent_payments.
  - by rewrite resolve_request_rent_payments.
  - destruct (record_payment_cases b uid now f w) as [[_ ->]|(_ & Hm & Hy & Ha & ->)];
      [done|].
    simpl. apply Forall_app. split; [done|]. by apply Forall_singleton.
  - by rewrite add_tenant_rent_payments.
Qed.

Lemma run_keeps_payments_in_range zod_email b ops w :
  Forall payment_in_range (rent_payments (store w)) ->
  Forall payment_in_range (rent_payments (store (App.run zod_email b ops w))).
Proof.
  revert w. induction ops as [|op ops IH]; intros w Hw; [done|].
  simpl. apply IH. by apply step_keeps_payments_in_range.
Qed.

(** C7 as stated fails: a payment with a negative amount is accepted
    and recorded. *)
Lemma negative_amount_is_recorded :
  let r := RentTracking.handleSubmit false Scenario.admin_uid 5000
             Scenario.march_A_negative Scenario.w0 in
  r.1 = RentTracking.PaymentRecorded
  /\ rent_payments (store r.2)
     = [mk_rent_payment "7" "A" 3 2024 (-500000) 19800 5000]
  /\ ~ (forall p, p ∈ rent_payments (store r.2) -> 0 <= rp_amount p).
Proof.
  split; [reflexivity|]. split; [reflexivity|].
  intros Hall.
  specialize (Hall (mk_rent_payment "7" "A" 3 2024 (-500000) 19800 5000)).
  simpl in Hall. assert (0 <= -500000) by (apply Hall; vm_compute; left). lia.
Qed.

(** C7, amended. Every accepted payment has its month in [1,12], its
    year in [2000,2100] and an amount, of either sign, within the
    column; a payment whose month or year is out of range is refused
    and the store keeps its rows; so from a store whose payments are in
    range, no sequence of operations records a payment with an
    out-of-range month or year. *)
Theorem recorded_payments_in_range (zod_email : string -> bool)
    (pg_error_is_Error : bool) (ops : list App.Op) (w : World) :
  Forall payment_in_range (rent_payments (store w)) ->
  let w' := App.run zod_email pg_error_is_Error ops w in
  Forall payment_in_range (rent_payments (store w'))
  /\ forall uid now f,
       let r := RentTracking.handleSubmit pg_error_is_Error uid now f w' in
       (r.1 = RentTracking.PaymentRecorded ->
        1 <= RentTracking.month f <= 12
        /\ 2000 <= RentTracking.year f <= 2100
        /\ - 10 ^ 10 < RentTracking.amount f < 10 ^ 10)
       /\ (~ (1 <= RentTracking.month f <= 12
              /\ 2000 <= RentTracking.year f <= 2100) ->
           r.1 <> RentTracking.PaymentRecorded
           /\ destructive r.1 = true
           /\ store r.2 = store w').
Proof.
  intros Hw w'. split; [by apply run_keeps_payments_in_range|].
  intros uid now f r. subst r.
  destruct (record_payment_cases pg_error_is_Error uid now f w')
    as [[Hno Hst]|(Hok & Hm & Hy & Ha & Hst)].
  - split; [done|]. intros _. split; [done|]. split; [|done].
    revert Hno. clear.
    unfold RentTracking.handleSubmit, Client.try_catch, Client.bind.
    destruct (Client.supabase_call _ _ _) as [[e|[e|]] w1]; simpl; try done.
    destruct (String.eqb (code e) "23505"); done.
  - split; [done|]. intros Hbad. tauto.
Qed.

(** C7 amended, on the scenario: the payment of March 2024 with a
    negative amount is recorded, and it is in range. *)
Lemma recorded_payments_in_range_witness :
  Forall payment_in_range (rent_payments (store Scenario.w0))
  /\ Forall payment_in_range
       (rent_payments (store
          (App.run (fun _ => true) false
             [App.RecordPayment Scenario.admin_uid 5000 Scenario.march_A_negative]
             Scenario.w0))).
Proof.
  assert (H0 : Forall payment_in_range (rent_payments (store Scenario.w0)))
    by constructor.
  split; [exact H0|].
  exact (proj1 (recorded_payments_in_range (fun _ => true) false
                  [App.RecordPayment Scenario.admin_uid 5000
                     Scenario.march_A_negative]
                  Scenario.w0 H0)).
Defined.

(** ** A principal without a role *)

Lemma has_role_with_tenant_role db uid uid' :
  Schema.has_role (with_tenant_role db uid) uid' admin
  = Schema.has_role db uid' admin.
Proof.
  unfold Schema.has_role, with_tenant_role. simpl.
  rewrite existsb_app. simpl. by rewrite andb_false_r, !orb_false_r.
Qed.

Lemma owns_with_tenant_role db uid uid' tenant_id :
  Schema.owns (with_tenant_role db uid) uid' tenant_id
  = Schema.owns db uid' tenant_id.
Proof. done. Qed.

Lemma select_tenants_with_tenant_role db uid :
  Schema.select_tenants (with_tenant_role db uid) uid
  = Schema.select_tenants db uid.
Proof.
  apply list_filter_iff. intros t. unfold Schema.tenants_select_policy.
  by rewrite has_role_with_tenant_role.
Qed.

Lemma select_rent_payments_with_tenant_role db uid :
  Schema.select_rent_payments (with_tenant_role db uid) uid
  = Schema.select_rent_payments db uid.
Proof.
  apply list_filter_iff. intros p. unfold Schema.rent_payments_select_policy.
  by rewrite has_role_with_tenant_role, owns_with_tenant_role.
Qed.

Lemma select_maintenance_requests_with_tenant_role db uid :
  Schema.select_maintenance_requests (with_tenant_role db uid) uid
  = Schema.select_maintenance_requests db uid.
Proof.
  apply list_filter_iff. intros r.
  unfold Schema.maintenance_requests_select_policy.
  by rewrite has_role_with_tenant_role, owns_with_tenant_role.
Qed.

Lemma insert_maintenance_request_with_tenant_role uid now tenant_id room s st db :
  Schema.insert_maintenance_request uid now tenant_id room s st
    (with_tenant_role db uid)
  = match Schema.insert_maintenance_request uid now tenant_id room s st db with
    | inl e => inl e
    | inr db' => inr (with_tenant_role db' uid)
    end.
Proof.
  unfold Schema.insert_maintenance_request,
    Schema.maintenance_requests_insert_policy.
  rewrite has_role_with_tenant_role, owns_with_tenant_role.
  change (Schema.tenant_exists (with_tenant_role db uid) tenant_id)
    with (Schema.tenant_exists db tenant_id).
  unfold Schema.gen_random_uuid. repeat case_match; simplify_eq; done.
Qed.

(** C6 as stated fails: a signed-in principal for whom no role was
    found is let through by the route guard and by the guard of the
    tenant pages, gets the tenant dashboard and the tenant links, as a
    tenant does, and, once linked to a tenant record, submits a
    maintenance request that the store accepts. *)
Lemma roleless_principal_is_shown_the_tenant_view :
  let uid := au_id Scenario.newcomer in
  (forall role, Schema.has_role Scenario.db_newcomer uid role = false)
  /\ App.ProtectedRoute (Some Scenario.newcomer) false = App.Children
  /\ Dashboard.Dashboard None Scenario.db_newcomer uid 3 2024
     = Dashboard.Dashboard (Some tenant) Scenario.db_newcomer uid 3 2024
  /\ DashboardLayout.links None = DashboardLayout.links (Some tenant)
  /\ App.page_redirects tenant None = false
  /\ (SubmitRequest.handleSubmit uid 3000
        (SubmitRequest.fetchTenantInfo Scenario.db_newcomer uid)
        (Scenario.text_of_length 10) (mkWorld Scenario.db_newcomer [])).1
     = SubmitRequest.RequestSubmitted.
Proof. split; [by intros []|]. repeat split. Qed.

(** C6, amended. A signed-in principal without a role record is not
    sent back to authentication: the route guard renders the page, no
    page guard redirects, the dashboard and the navigation are those of
    a tenant, and the store answers the reads and the submission of the
    tenant pages as it would if the principal had the role tenant. *)
Theorem roleless_principal_defaults_to_tenant_view (user : auth_user)
    (db : DB) (selectedMonth selectedYear now : Z)
    (tenantInfo : option SubmitRequest.TenantInfo) (issueDescription : string)
    (log : list Call) :
  (forall role, Schema.has_role db (au_id user) role = false) ->
  let uid := au_id user in
  let db_t := with_tenant_role db uid in
  App.ProtectedRoute (Some user) false = App.Children
  /\ (forall required, App.page_redirects required None = false)
  /\ DashboardLayout.links None = DashboardLayout.tenantLinks
  /\ Dashboard.Dashboard None db uid selectedMonth selectedYear
     = Dashboard.Dashboard (Some tenant) db_t uid selectedMonth selectedYear
  /\ MyRentHistory.fetchPayments db uid = MyRentHistory.fetchPayments db_t uid
  /\ SubmitRequest.fetchTenantInfo db uid = SubmitRequest.fetchTenantInfo db_t uid
  /\ (let r := SubmitRequest.handleSubmit uid now tenantInfo issueDescription
                 (mkWorld db log) in
      let r_t := SubmitRequest.handleSubmit uid now tenantInfo issueDescription
                   (mkWorld db_t log) in
      r.1 = r_t.1
      /\ maintenance_requests (store r.2) = maintenance_requests (store r_t.2)).
Proof.
  intros Hnone uid db_t. subst db_t.
  split; [done|]. split; [done|]. split; [done|].
  split; [|split; [|split]].
  - unfold Dashboard.Dashboard, Dashboard.fetchTenantData. simpl.
    by rewrite select_maintenance_requests_with_tenant_role.
  - unfold MyRentHistory.fetchPayments.
    by rewrite select_rent_payments_with_tenant_role.
  - unfold SubmitRequest.fetchTenantInfo.
    by rewrite select_tenants_with_tenant_role.
  - unfold SubmitRequest.handleSubmit. destruct tenantInfo as [info|]; [|done].
    unfold SubmitRequest.requestSchema_parse. unfold_client.
    destruct (String.length issueDescription <? 10)%nat; [done|].
    destruct (1000 <? String.length issueDescription)%nat; [done|].
    cbn [store calls].
    rewrite insert_maintenance_request_with_tenant_role.
    by destruct (Schema.insert_maintenance_request _ _ _ _ _ _ db).
Qed.

(** C6 amended, on the scenario. *)
Lemma roleless_principal_defaults_to_tenant_view_witness :
  let uid := au_id Scenario.newcomer in
  (forall role, Schema.has_role Scenario.db_newcomer uid role = false)
  /\ Dashboard.Dashboard None Scenario.db_newcomer uid 3 2024
     = Dashboard.Dashboard (Some tenant)
         (with_tenant_role Scenario.db_newcomer uid) uid 3 2024.
Proof.
  intros uid.
  assert (Hnone : forall role,
            Schema.has_role Scenario.db_newcomer uid role = false)
    by by intros [].
  split; [exact Hnone|].
  exact (proj1 (proj2 (proj2 (proj2
           (roleless_principal_defaults_to_tenant_view Scenario.newcomer
              Scenario.db_newcomer 3 2024 3000 None "" [] Hnone))))).
Defined.

(** ** What a tenant reads *)

Lemma owns_iff db uid tenant_id :
  Schema.owns db uid tenant_id = true
  <-> Some tenant_id = Schema.get_tenant_id_for_user db uid.
Proof.
  unfold Schema.owns. destruct (Schema.get_tenant_id_for_user db uid) as [own|].
  - rewrite String.eqb_eq. naive_solver.
  - naive_solver.
Qed.

Lemma tenant_select_rent_payments db uid :
  Schema.has_role db uid admin = false ->
  Schema.select_rent_payments db uid
  = filter (fun p => Some (rp_tenant_id p) = Schema.get_tenant_id_for_user db uid)
      (rent_payments db).
Proof.
  intros Hadm. apply list_filter_iff. intros p.
  unfold Schema.rent_payments_select_policy. rewrite Hadm. simpl.
  rewrite Is_true_true. apply owns_iff.
Qed.

Lemma tenant_select_maintenance_requests db uid :
  Schema.has_role db uid admin = false ->
  Schema.select_maintenance_requests db uid
  = filter (fun r => Some (mr_tenant_id r) = Schema.get_tenant_id_for_user db uid)
      (maintenance_requests db).
Proof.
  intros Hadm. apply list_filter_iff. intros r.
  unfold Schema.maintenance_requests_select_policy. rewrite Hadm. simpl.
  rewrite Is_true_true. apply owns_iff.
Qed.

Lemma has_role_same_roles db db' uid role :
  user_roles db' = user_roles db ->
  Schema.has_role db' uid role = Schema.has_role db uid role.
Proof. unfold Schema.has_role. by intros ->. Qed.

Lemma get_tenant_id_same_tenants db db' uid :
  tenants db' = tenants db ->
  Schema.get_tenant_id_for_user db' uid = Schema.get_tenant_id_for_user db uid.
Proof. unfold Schema.get_tenant_id_for_user. by intros ->. Qed.

(** C9. For a principal that is not an admin, the payments and the
    open requests the tenant pages fetch are total functions of the
    store that return only rows of the principal's own tenant record;
    and they are the same in any two stores that agree on the roles,
    on the tenants and on the rows of that tenant record, whatever rows
    other tenants have. *)
Theorem tenant_reads_only_own_rows (db : DB) (uid : uuid) :
  Schema.has_role db uid admin = false ->
  let own := Schema.get_tenant_id_for_user db uid in
  (forall p, p ∈ MyRentHistory.fetchPayments db uid -> Some (rp_tenant_id p) = own)
  /\ (forall r, r ∈ Dashboard.fetchTenantData db uid -> Some (mr_tenant_id r) = own)
  /\ (forall db',
        user_roles db' = user_roles db ->
        tenants db' = tenants db ->
        filter (fun p => Some (rp_tenant_id p) = own) (rent_payments db')
        = filter (fun p => Some (rp_tenant_id p) = own) (rent_payments db) ->
        filter (fun r => Some (mr_tenant_id r) = own) (maintenance_requests db')
        = filter (fun r => Some (mr_tenant_id r) = own) (maintenance_requests db) ->
        MyRentHistory.fetchPayments db' uid = MyRentHistory.fetchPayments db uid
        /\ Dashboard.fetchTenantData db' uid = Dashboard.fetchTenantData db uid).
Proof.
  intros Hadm own. split; [|split].
  - intros p. unfold MyRentHistory.fetchPayments.
    rewrite order_by_elem_of, tenant_select_rent_payments by done.
    rewrite list_elem_of_filter. naive_solver.
  - intros r. unfold Dashboard.fetchTenantData.
    rewrite order_by_elem_of, tenant_select_maintenance_requests by done.
    rewrite !list_elem_of_filter. naive_solver.
  - intros db' Hroles Htenants Hp Hr.
    assert (Hadm' : Schema.has_role db' uid admin = false)
      by by rewrite (has_role_same_roles db db').
    unfold MyRentHistory.fetchPayments, Dashboard.fetchTenantData.
    rewrite !tenant_select_rent_payments, !tenant_select_maintenance_requests
      by done.
    rewrite (get_tenant_id_same_tenants db db') by done.
    fold own. by rewrite Hp, Hr.
Qed.

(** C9 on the scenario: tenant B reads no payment, with or without the
    payment of tenant A in the store. *)
Lemma tenant_reads_only_own_rows_witness :
  Schema.has_role Scenario.db1 Scenario.uid_B admin = false
  /\ MyRentHistory.fetchPayments Scenario.db0 Scenario.uid_B
     = MyRentHistory.fetchPayments Scenario.db1 Scenario.uid_B
  /\ MyRentHistory.fetchPayments Scenario.db1 Scenario.uid_B = [].
Proof.
  split; [reflexivity|]. split; [|reflexivity].
  apply (tenant_reads_only_own_rows Scenario.db1 Scenario.uid_B);
    reflexivity.
Defined.

(** ** Provisioning a tenant *)

Lemma sign_up_adds_user email password db u db1 :
  Schema.auth_signUp email password db = inr (u, db1) ->
  auth_users db1 = auth_users db ++ [u]
  /\ au_email u = email
  /\ user_roles db1 = user_roles db
  /\ tenants db1 = tenants db
  /\ Schema.user_exists db1 (au_id u) = true.
Proof.
  unfold Schema.auth_signUp, Schema.gen_random_uuid.
  destruct (existsb _ (auth_users db)); [done|]. simpl.
  intros [= <- <-]. simpl. repeat split; try done.
  unfold Schema.user_exists. simpl. rewrite existsb_app. simpl.
  by rewrite String.eqb_refl, orb_true_r.
Qed.






(** ** The life of a maintenance request *)

Lemma submit_request_requests uid now info s w :
  let l := maintenance_requests (store w) in
  let l' := maintenance_requests
              (store (SubmitRequest.handleSubmit uid now info s w).2) in
  l' = l
  \/ exists id tenant_id room_no,
       l' = l ++ [mk_maintenance_request id tenant_id room_no s "open" now None].
Proof.
  unfold SubmitRequest.handleSubmit, SubmitRequest.requestSchema_parse.
  handler_paths; eauto.
Qed.

Lemma resolve_request_requests uid client_now id w :
  maintenance_requests
    (store (MaintenanceManagement.handleResolve uid client_now id w).2)
  = (fun r => if Schema.has_role (store w) uid admin && String.eqb (mr_id r) id
              then resolved_at_time r client_now else r)
    <$> maintenance_requests (store w).
Proof. unfold MaintenanceManagement.handleResolve. handler_paths; done. Qed.

Lemma record_payment_requests b uid now f w :
  maintenance_requests (store (RentTracking.handleSubmit b uid now f w).2)
  = maintenance_requests (store w).
Proof. unfold RentTracking.handleSubmit. handler_paths; done. Qed.

Lemma add_tenant_requests zod_email b uid now f w :
  maintenance_requests
    (store (TenantManagement.handleSubmit zod_email b uid now f w).2)
  = maintenance_requests (store w).
Proof.
  unfold TenantManagement.handleSubmit, TenantManagement.tenantSchema_parse.
  handler_paths; done.
Qed.

(** What one operation does to the table of requests: nothing, one new
    open row dated by the operation, or the resolution of some rows
    dated by the operation. *)
Lemma step_requests zod_email b w op :
  let l := maintenance_requests (store w) in
  let l' := maintenance_requests (store (App.step zod_email b w op)) in
  l' = l
  \/ (exists id tenant_id room_no s,
        l' = l ++ [mk_maintenance_request id tenant_id room_no s "open"
                     (App.op_clock op) None])
  \/ (exists sel : maintenance_request_row -> bool,
        l' = (fun r => if sel r then resolved_at_time r (App.op_clock op) else r)
             <$> l).
Proof.
  destruct op as [uid now info s|uid c id|uid now f|uid now f];
    unfold App.step, App.op_clock.
  - destruct (submit_request_requests uid now info s w)
      as [->|(i & t & rn & ->)]; [by left|]. right. left. eauto.
  - right. right. rewrite resolve_request_requests. eauto.
  - left. apply record_payment_requests.
  - left. apply add_tenant_requests.
Qed.

Section RequestInvariants.
Variable zod_email : string -> bool.
Variable pg_error_is_Error : bool.

Abbreviation step := (App.step zod_email pg_error_is_Error).
Abbreviation run := (App.run zod_email pg_error_is_Error).

Lemma step_resolved_iff_timestamped w op :
  Forall resolved_iff_timestamped (maintenance_requests (store w)) ->
  Forall resolved_iff_timestamped (maintenance_requests (store (step w op))).
Proof.
  intros Hw.
  destruct (step_requests zod_email pg_error_is_Error w op)
    as [->|[(i & t & rn & s & ->)|(sel & ->)]]; [done| |].
  - apply Forall_app. split; [done|]. apply Forall_singleton.
    unfold resolved_iff_timestamped. simpl. split; done.
  - apply Forall_fmap. eapply Forall_impl; [exact Hw|].
    intros r Hr. simpl. destruct (sel r); [|done].
    unfold resolved_iff_timestamped. simpl. split; done.
Qed.

Lemma run_resolved_iff_timestamped ops w :
  Forall resolved_iff_timestamped (maintenance_requests (store w)) ->
  Forall resolved_iff_timestamped (maintenance_requests (store (run ops w))).
Proof.
  revert w. induction ops as [|op ops IH]; intros w Hw; [done|].
  simpl. apply IH. by apply step_resolved_iff_timestamped.
Qed.

Lemma step_dated_before t w op :
  t <= App.op_clock op ->
  Forall (dated_before t) (maintenance_requests (store w)) ->
  Forall (dated_before (App.op_clock op))
    (maintenance_requests (store (step w op))).
Proof.
  intros Ht Hw.
  assert (Hw' : Forall (dated_before (App.op_clock op))
                  (maintenance_requests (store w))).
  { eapply Forall_impl; [exact Hw|]. intros r [Hc Hr]. split; [lia|done]. }
  destruct (step_requests zod_email pg_error_is_Error w op)
    as [->|[(i & tn & rn & s & ->)|(sel & ->)]]; [done| |].
  - apply Forall_app. split; [done|]. apply Forall_singleton.
    split; simpl; [lia|]. intros t' Hnone. done.
  - apply Forall_fmap. eapply Forall_impl; [exact Hw'|].
    intros r [Hc Hr]. simpl. destruct (sel r); [|done].
    split; [done|]. intros t' [= <-]. done.
Qed.

Lemma run_resolved_after_created ops t w :
  App.clock_monotone t ops ->
  Forall (dated_before t) (maintenance_requests (store w)) ->
  Forall resolved_after_created (maintenance_requests (store (run ops w))).
Proof.
  revert t w. induction ops as [|op ops IH]; intros t w Hclock Hw.
  - simpl. eapply Forall_impl; [exact Hw|]. by intros r [_ Hr].
  - destruct Hclock as [Ht Hclock]. simpl.
    apply (IH (App.op_clock op)); [done|]. by apply (step_dated_before t).
Qed.

(** A resolved row stays in its place, resolved. *)
Lemma step_resolved_is_terminal w op i r :
  maintenance_requests (store w) !! i = Some r ->
  mr_status r = "resolved" ->
  exists r', maintenance_requests (store (step w op)) !! i = Some r'
             /\ mr_id r' = mr_id r /\ mr_status r' = "resolved".
Proof.
  intros Hi Hres.
  destruct (step_requests zod_email pg_error_is_Error w op)
    as [->|[(j & tn & rn & s & ->)|(sel & ->)]].
  - eauto.
  - exists r. split; [|done]. by apply lookup_app_l_Some.
  - rewrite list_lookup_fmap, Hi. simpl.
    destruct (sel r); eauto.
Qed.
End RequestInvariants.

(** C2 as stated fails: a request created when the store's clock reads
    100 and resolved from a browser whose clock reads 50 is resolved,
    with [resolved_at] earlier than [created_at]. *)
Lemma resolved_before_created :
  maintenance_requests (store Scenario.w0) = []
  /\ maintenance_requests
       (store (App.run Scenario.zod_email false
                 Scenario.resolved_with_slow_clock Scenario.w0))
     = [mk_maintenance_request "7" "A" "101" (Scenario.text_of_length 10)
          "resolved" 100 (Some 50)]
  /\ ~ resolved_after_created
         (mk_maintenance_request "7" "A" "101" (Scenario.text_of_length 10)
            "resolved" 100 (Some 50)).
Proof.
  split; [reflexivity|]. split; [reflexivity|].
  intros H. specialize (H 50 eq_refl). simpl in H. lia.
Qed.

(** C2, amended. In every state reached from a store without requests:
    a resolution by an admin sets the status to resolved and
    [resolved_at] to the browser's reading of the clock on the rows
    with the given id; a resolved row keeps its place and its status
    under every operation; [resolved_at] is set exactly on the
    resolved rows; and [resolved_at] is not earlier than [created_at]
    provided the clock readings taken by the successive operations
    never go backwards. *)
Theorem resolved_is_terminal_and_timestamped (zod_email : string -> bool)
    (pg_error_is_Error : bool) (ops : list App.Op) (w : World) :
  maintenance_requests (store w) = [] ->
  let w' := App.run zod_email pg_error_is_Error ops w in
  (forall uid client_now id i r,
     Schema.has_role (store w') uid admin = true ->
     maintenance_requests (store w') !! i = Some r ->
     mr_id r = id ->
     maintenance_requests
       (store (MaintenanceManagement.handleResolve uid client_now id w').2) !! i
     = Some (resolved_at_time r client_now))
  /\ (forall op i r,
        maintenance_requests (store w') !! i = Some r ->
        mr_status r = "resolved" ->
        exists r',
          maintenance_requests
            (store (App.step zod_email pg_error_is_Error w' op)) !! i = Some r'
          /\ mr_id r' = mr_id r /\ mr_status r' = "resolved")
  /\ Forall resolved_iff_timestamped (maintenance_requests (store w'))
  /\ (forall t, App.clock_monotone t ops ->
        Forall resolved_after_created (maintenance_requests (store w'))).
Proof.
  intros Hempty w'. split; [|split; [|split]].
  - intros uid c id i r Hadm Hi Hid.
    rewrite resolve_request_requests, list_lookup_fmap, Hi. simpl.
    by rewrite Hadm, <- Hid, String.eqb_refl.
  - intros op i r. apply step_resolved_is_terminal.
  - apply run_resolved_iff_timestamped. by rewrite Hempty.
  - intros t Hclock. apply (run_resolved_after_created _ _ ops t); [done|].
    by rewrite Hempty.
Qed.

(** C2 amended, on the scenario: created at 100, resolved at 150. *)
Lemma resolved_is_terminal_and_timestamped_witness :
  let w' := App.run Scenario.zod_email false Scenario.resolved_in_order
              Scenario.w0 in
  maintenance_requests (store Scenario.w0) = []
  /\ App.clock_monotone 0 Scenario.resolved_in_order
  /\ Forall resolved_iff_timestamped (maintenance_requests (store w'))
  /\ Forall resolved_after_created (maintenance_requests (store w')).
Proof.
  intros w'.
  assert (Hclock : App.clock_monotone 0 Scenario.resolved_in_order)
    by (simpl; lia).
  split; [reflexivity|]. split; [exact Hclock|].
  destruct (resolved_is_terminal_and_timestamped Scenario.zod_email false
              Scenario.resolved_in_order Scenario.w0 eq_refl)
    as (_ & _ & Hiff & Hafter).
  split; [exact Hiff | exact (Hafter 0 Hclock)].
Defined.

(** ** The scenarios of the specification, evaluated *)

(** The admin records 5000.00 for tenant A, March 2024: the dashboard
    of that period has A paid and, of tenants A and B, B due. *)
Example scenario_payment_of_A :
  let d := Dashboard.fetchAdminData Scenario.db1 Scenario.admin_uid 3 2024 in
  Dashboard.paidTenants d = ["A"]
  /\ Dashboard.dueTenants d = [Scenario.tenant_B]
  /\ Dashboard.dueTenants
       (Dashboard.fetchAdminData Scenario.db1 Scenario.admin_uid 4 2024)
     = [Scenario.tenant_A; Scenario.tenant_B].
Proof. vm_compute. repeat split. Qed.

(** A tenant submits a request of ten characters, the admin resolves
    it: the open count goes from 0 to 1 to 0, the resolved count from 0
    to 1, and [resolved_at] is set. *)
Example scenario_request_resolved :
  let count w :=
    (MaintenanceManagement.openCount (maintenance_requests (store w)),
     MaintenanceManagement.resolvedCount (maintenance_requests (store w))) in
  let w1 := Scenario.submit_at Scenario.w0 100 in
  let w2 := (MaintenanceManagement.handleResolve Scenario.admin_uid 150 "7" w1).2 in
  count Scenario.w0 = (0, 0)%nat
  /\ count w1 = (1, 0)%nat
  /\ count w2 = (0, 1)%nat
  /\ mr_resolved_at <$> maintenance_requests (store w2) = [Some 150].
Proof. vm_compute. repeat split. Qed.

(** * Further properties of the code *)

(** ** Recording a payment: when it succeeds, and what each failure is *)

Lemma payment_recorded_iff db tenant_id m y :
  Schema.payment_recorded db tenant_id m y = true
  <-> (tenant_id, m, y) ∈ payment_key <$> rent_payments db.
Proof.
  unfold Schema.payment_recorded. rewrite existsb_exists, list_elem_of_fmap.
  split.
  - intros (r & Hr & Heq). apply list_elem_of_In in Hr.
    apply andb_true_iff in Heq as [Heq Hy]. apply andb_true_iff in Heq as [Ht Hm].
    apply String.eqb_eq in Ht. apply Z.eqb_eq in Hm, Hy.
    exists r. split; [|done]. unfold payment_key. congruence.
  - intros (r & Heq & Hr). exists r. split; [by apply list_elem_of_In|].
    unfold payment_key in Heq. injection Heq as -> -> ->.
    by rewrite String.eqb_refl, !Z.eqb_refl.
Qed.

Lemma tenant_exists_iff db tenant_id :
  Schema.tenant_exists db tenant_id = true <-> tenant_id ∈ t_id <$> tenants db.
Proof.
  unfold Schema.tenant_exists. rewrite existsb_exists, list_elem_of_fmap.
  split.
  - intros (t & Ht & Heq). apply String.eqb_eq in Heq.
    exists t. split; [done | by apply list_elem_of_In].
  - intros (t & -> & Ht). exists t.
    split; [by apply list_elem_of_In | apply String.eqb_refl].
Qed.

(** An accepted payment passed every check of the store. *)
Lemma record_payment_accepted_inv (b : bool) (uid : uuid) (now : Z)
    (f : RentTracking.FormData) (w : World) :
  (RentTracking.handleSubmit b uid now f w).1 = RentTracking.PaymentRecorded ->
  Schema.numeric_10_2_fits (RentTracking.amount f) = true
  /\ Schema.has_role (store w) uid admin = true
  /\ Schema.payment_recorded (store w) (RentTracking.tenant_id f)
       (RentTracking.month f) (RentTracking.year f) = false
  /\ Schema.tenant_exists (store w) (RentTracking.tenant_id f) = true.
Proof.
  unfold RentTracking.handleSubmit, Client.try_catch, Client.bind,
    Client.supabase_call, Schema.insert_rent_payment,
    Schema.rent_payments_write_policy.
  destruct (Schema.numeric_10_2_fits (RentTracking.amount f)); [|done].
  destruct (Schema.has_role (store w) uid admin); [|done].
  destruct ((1 <=? RentTracking.month f) && (RentTracking.month f <=? 12));
    [|done].
  destruct ((2000 <=? RentTracking.year f) && (RentTracking.year f <=? 2100));
    [|done].
  destruct (Schema.payment_recorded _ _ _ _); [done|].
  by destruct (Schema.tenant_exists _ _).
Qed.

(** X1. A payment is recorded exactly when the amount fits the column,
    the caller is an admin, month and year are in range, no payment of
    that tenant, month and year exists and the tenant exists, and then
    the store holds one more payment, the last one, with a new
    identifier, the fields of the form and the time of the store, the
    other tables being as they were; the duplicate toast is shown
    exactly when only the uniqueness fails first; every other outcome
    leaves the store as it was; and one insert is issued in every
    case. *)
Theorem record_payment_outcome (pg_error_is_Error : bool) (uid : uuid)
    (now : Z) (f : RentTracking.FormData) (w : World) :
  let r := RentTracking.handleSubmit pg_error_is_Error uid now f w in
  let passes_checks :=
    Schema.numeric_10_2_fits (RentTracking.amount f) = true
    /\ Schema.has_role (store w) uid admin = true
    /\ 1 <= RentTracking.month f <= 12
    /\ 2000 <= RentTracking.year f <= 2100 in
  let recorded :=
    Schema.payment_recorded (store w) (RentTracking.tenant_id f)
      (RentTracking.month f) (RentTracking.year f) in
  (r.1 = RentTracking.PaymentRecorded
   <-> passes_checks /\ recorded = false
       /\ Schema.tenant_exists (store w) (RentTracking.tenant_id f) = true)
  /\ (r.1 = RentTracking.PaymentRecorded ->
      rent_payments (store r.2)
      = rent_payments (store w)
        ++ [mk_rent_payment (pretty (uuid_seq (store w)))
              (RentTracking.tenant_id f) (RentTracking.month f)
              (RentTracking.year f) (RentTracking.amount f)
              (RentTracking.paid_on f) now]
      /\ tenants (store r.2) = tenants (store w)
      /\ maintenance_requests (store r.2) = maintenance_requests (store w)
      /\ user_roles (store r.2) = user_roles (store w)
      /\ auth_users (store r.2) = auth_users (store w))
  /\ (r.1 = RentTracking.DuplicatePayment <-> passes_checks /\ recorded = true)
  /\ (r.1 <> RentTracking.PaymentRecorded -> store r.2 = store w)
  /\ calls r.2 = calls w ++ [CallInsert "rent_payments"].
Proof.
  intros r passes_checks recorded. subst r passes_checks recorded.
  rewrite <- month_check_iff, <- year_check_iff.
  unfold RentTracking.handleSubmit, Client.try_catch, Client.bind,
    Client.supabase_call, Schema.insert_rent_payment,
    Schema.rent_payments_write_policy.
  destruct (Schema.numeric_10_2_fits (RentTracking.amount f));
    [|destruct pg_error_is_Error; simpl; split_and!; (done || naive_solver)].
  destruct (Schema.has_role (store w) uid admin);
    [|destruct pg_error_is_Error; simpl; split_and!; (done || naive_solver)].
  destruct ((1 <=? RentTracking.month f) && (RentTracking.month f <=? 12));
    [|destruct pg_error_is_Error; simpl; split_and!; (done || naive_solver)].
  destruct ((2000 <=? RentTracking.year f) && (RentTracking.year f <=? 2100));
    [|destruct pg_error_is_Error; simpl; split_and!; (done || naive_solver)].
  destruct (Schema.payment_recorded _ _ _ _);
    [simpl; split_and!; (done || naive_solver)|].
  destruct (Schema.tenant_exists _ _);
    [|destruct pg_error_is_Error; simpl; split_and!; (done || naive_solver)].
  simpl. split_and!; (done || naive_solver).
Qed.

(** ** The keys of tenants and payments *)

(** What one operation does to the tenants and to the sequence of
    identifiers: the sequence never goes back, and a tenant is only
    ever appended, under an identifier the sequence had not reached. *)
Lemma step_tenants zod_email b w op :
  let db := store w in
  let db' := store (App.step zod_email b w op) in
  (uuid_seq db <= uuid_seq db')%N
  /\ (tenants db' = tenants db
      \/ exists row n,
           tenants db' = tenants db ++ [row] /\ t_id row = pretty n
           /\ (uuid_seq db <= n < uuid_seq db')%N).
Proof.
  destruct op as [uid now info s|uid c id|uid now f|uid now f]; unfold App.step.
  - unfold SubmitRequest.handleSubmit, SubmitRequest.requestSchema_parse.
    handler_paths; (split; [lia | by left]).
  - unfold MaintenanceManagement.handleResolve.
    handler_paths; (split; [lia | by left]).
  - unfold RentTracking.handleSubmit.
    handler_paths; (split; [lia | by left]).
  - unfold TenantManagement.handleSubmit, TenantManagement.tenantSchema_parse.
    handler_paths; (split; [lia|]);
      first [ by left
            | right; do 2 eexists;
              split; [reflexivity | split; [reflexivity | lia]] ].
Qed.

(** What one operation does to the payments: nothing, or one row for a
    tenant, month and year not yet recorded, owned by a tenant. *)
Lemma step_rent_payments zod_email b w op :
  let db := store w in
  let db' := store (App.step zod_email b w op) in
  rent_payments db' = rent_payments db
  \/ exists row,
       rent_payments db' = rent_payments db ++ [row]
       /\ (payment_key row ∉ payment_key <$> rent_payments db)
       /\ rp_tenant_id row ∈ t_id <$> tenants db.
Proof.
  destruct op as [uid now info s|uid c id|uid now f|uid now f]; unfold App.step.
  - left. apply submit_request_rent_payments.
  - left. apply resolve_request_rent_payments.
  - destruct (record_payment_cases b uid now f w)
      as [[_ Hkeep]|(Hrec & Hm & Hy & _)].
    + left. by rewrite Hkeep.
    + apply record_payment_accepted_inv in Hrec as (Hfit & Hadm & Hnew & Hten).
      right. rewrite (record_payment_accepted b uid now f w) by done.
      eexists. split; [reflexivity|]. split.
      * intros Hin. apply payment_recorded_iff in Hin. simpl in Hin. congruence.
      * by apply tenant_exists_iff.
  - left. apply add_tenant_rent_payments.
Qed.

Lemma step_ledger_consistent zod_email b w op :
  ledger_consistent (store w) ->
  ledger_consistent (store (App.step zod_email b w op)).
Proof.
  intros (Hids & Hfresh & Hkeys & Hown).
  destruct (step_tenants zod_email b w op) as [Hseq Hten].
  destruct (step_rent_payments zod_email b w op) as [Hpay|(row & Hpay & Hnew & Hrow)].
  - (* payments unchanged *)
    destruct Hten as [Hten|(t & n & Hten & Hid & Hn)].
    + unfold ledger_consistent, tenant_ids_fresh. rewrite Hten, Hpay.
      split_and!; try done. intros m Hm. apply Hfresh. lia.
    + unfold ledger_consistent, tenant_ids_fresh.
      rewrite Hten, Hpay, fmap_app. simpl. split_and!; try done.
      * apply NoDup_app. split_and!; [done| |apply NoDup_singleton].
        intros i Hi ->%list_elem_of_singleton. rewrite Hid in Hi.
        by apply (Hfresh n); [lia|].
      * intros m Hm [Hin|Hin%list_elem_of_singleton]%elem_of_app.
        -- apply (Hfresh m); [lia | done].
        -- rewrite Hid in Hin. apply (inj pretty) in Hin. lia.
      * intros p Hp. apply elem_of_app. left. by apply Hown.
  - (* one payment appended: the tenants are as before *)
    assert (Hten' : tenants (store (App.step zod_email b w op)) = tenants (store w)).
    { destruct op as [uid now info s|uid c id|uid now f|uid now f];
        unfold App.step in *.
      - rewrite submit_request_rent_payments in Hpay.
        apply (f_equal length) in Hpay. rewrite length_app in Hpay.
        simpl in Hpay. lia.
      - rewrite resolve_request_rent_payments in Hpay.
        apply (f_equal length) in Hpay. rewrite length_app in Hpay.
        simpl in Hpay. lia.
      - unfold RentTracking.handleSubmit. handler_paths; done.
      - rewrite add_tenant_rent_payments in Hpay.
        apply (f_equal length) in Hpay. rewrite length_app in Hpay.
        simpl in Hpay. lia. }
    unfold ledger_consistent, tenant_ids_fresh.
    rewrite Hten', Hpay, fmap_app. simpl. split_and!; try done.
    + intros m Hm. apply Hfresh. lia.
    + apply NoDup_app. split_and!; [done| |apply NoDup_singleton].
      by intros k Hk ->%list_elem_of_singleton.
    + intros p [Hp| ->%list_elem_of_singleton]%elem_of_app; [by apply Hown|done].
Qed.

(** X2. The keys hold in every reachable state: from a store in which
    tenant ids are distinct and ahead of none the sequence will
    produce, payments are one per tenant, month and year, and every
    payment belongs to a tenant, every sequence of operations leads to
    such a store. *)
Theorem ledger_consistent_is_kept (zod_email : string -> bool)
    (pg_error_is_Error : bool) (ops : list App.Op) (w : World) :
  ledger_consistent (store w) ->
  ledger_consistent (store (App.run zod_email pg_error_is_Error ops w)).
Proof.
  revert w. induction ops as [|op ops IH]; intros w Hw; [done|].
  simpl. apply IH. by apply step_ledger_consistent.
Qed.

(** X2 on the scenario: a month of operations on a seeded store. *)
Lemma ledger_consistent_is_kept_witness :
  ledger_consistent Scenario.db_seeded
  /\ ledger_consistent (store Scenario.w_month).
Proof.
  assert (H0 : ledger_consistent Scenario.db_seeded).
  { split_and!.
    - refine (bool_decide_unpack _ _). vm_compute. exact I.
    - intros n Hn Hin. simpl in Hn, Hin.
      change ["4"; "6"] with [pretty 4%N; pretty 6%N] in Hin.
      apply elem_of_cons in Hin as [Hin|Hin%list_elem_of_singleton];
        apply (inj pretty) in Hin; lia.
    - constructor.
    - intros p Hp. simpl in Hp. by apply elem_of_nil in Hp. }
  split; [exact H0|].
  exact (ledger_consistent_is_kept Scenario.zod_email false Scenario.a_month
           (mkWorld Scenario.db_seeded []) H0).
Defined.

(** ** The totals of the admin views *)

Lemma NoDup_fmap_eq {A B} (f : A -> B) (l : list A) x y :
  NoDup (f <$> l) -> x ∈ l -> y ∈ l -> f x = f y -> x = y.
Proof.
  induction l as [|a l IH]; intros Hnd Hx Hy Heq; [by apply elem_of_nil in Hx|].
  rewrite fmap_cons in Hnd. apply NoDup_cons in Hnd as [Ha Hnd].
  apply elem_of_cons in Hx as [->|Hx]; apply elem_of_cons in Hy as [->|Hy].
  - done.
  - exfalso. apply Ha. rewrite Heq. by apply list_elem_of_fmap_2.
  - exfalso. apply Ha. rewrite <- Heq. by apply list_elem_of_fmap_2.
  - by apply IH.
Qed.

(** Within one period, one payment per tenant. *)
Lemma period_tenant_ids_NoDup (rows : list rent_payment_row) (m y : Z) :
  NoDup (payment_key <$> rows) ->
  NoDup (rp_tenant_id <$> filter (fun p => rp_month p = m /\ rp_year p = y) rows).
Proof.
  intros Hkeys. apply NoDup_fmap_2_strong.
  - intros p q [[Hpm Hpy] Hp]%list_elem_of_filter
      [[Hqm Hqy] Hq]%list_elem_of_filter Hid.
    apply (NoDup_fmap_eq payment_key rows); [done..|].
    unfold payment_key. congruence.
  - apply NoDup_filter. by apply NoDup_fmap_1 in Hkeys.
Qed.

Lemma consistent_admin_totals (db : DB) (uid : uuid) (m y : Z) :
  ledger_consistent db ->
  Schema.has_role db uid admin = true ->
  let d := Dashboard.fetchAdminData db uid m y in
  let fd := RentTracking.fetchData db uid m y in
  length (Dashboard.tenants d)
  = (length (Dashboard.paidTenants d) + length (Dashboard.dueTenants d))%nat
  /\ length fd.1
     = (length fd.2 + length (RentTracking.unpaidTenants fd.1 fd.2))%nat.
Proof.
  intros (Hids & _ & Hkeys & Hown) Hadm d fd. subst d fd.
  unfold Dashboard.fetchAdminData, RentTracking.fetchData,
    Dashboard.dueTenants, RentTracking.unpaidTenants, Dashboard.includes,
    RentTracking.includes, RentTracking.paidTenantIds.
  cbn [Dashboard.tenants Dashboard.paidTenants fst snd].
  rewrite admin_select_tenants, admin_select_rent_payments by done.
  split.
  - apply length_paid_plus_due; [done | by apply period_tenant_ids_NoDup|].
    intros i (p & -> & Hp)%list_elem_of_fmap.
    apply list_elem_of_filter in Hp as [_ Hp]. by apply Hown.
  - rewrite <- (length_fmap rp_tenant_id (Schema.order_by _ _)).
    apply length_paid_plus_due.
    + by rewrite order_by_Permutation.
    + rewrite order_by_Permutation. by apply period_tenant_ids_NoDup.
    + intros i (p & -> & Hp)%list_elem_of_fmap.
      rewrite order_by_elem_of in Hp.
      apply list_elem_of_filter in Hp as [_ Hp].
      rewrite order_by_Permutation. by apply Hown.
Qed.

Lemma run_ledger_consistent zod_email b ops w :
  ledger_consistent (store w) ->
  ledger_consistent (store (App.run zod_email b ops w)).
Proof.
  revert w. induction ops as [|op ops IH]; intros w Hw; [done|].
  simpl. apply IH. by apply step_ledger_consistent.
Qed.

(** X3. In every state reached from a consistent store, what an admin
    sees adds up for every month and year: on the dashboard, Total
    Tenants is Rent Paid plus Rent Due; on the rent page, the tenants
    are the Paid plus the Due. *)
Theorem admin_totals_add_up (zod_email : string -> bool)
    (pg_error_is_Error : bool) (ops : list App.Op) (w : World)
    (uid : uuid) (selectedMonth selectedYear : Z) :
  ledger_consistent (store w) ->
  let db := store (App.run zod_email pg_error_is_Error ops w) in
  Schema.has_role db uid admin = true ->
  let d := Dashboard.fetchAdminData db uid selectedMonth selectedYear in
  let fd := RentTracking.fetchData db uid selectedMonth selectedYear in
  length (Dashboard.tenants d)
  = (length (Dashboard.paidTenants d) + length (Dashboard.dueTenants d))%nat
  /\ length fd.1
     = (length fd.2 + length (RentTracking.unpaidTenants fd.1 fd.2))%nat.
Proof.
  intros Hw db Hadm. apply consistent_admin_totals; [|done].
  by apply run_ledger_consistent.
Qed.

(** X3 on the scenario: after the month, March 2024 has three tenants,
    two paid, one due. *)
Lemma admin_totals_add_up_witness :
  let d := Dashboard.fetchAdminData (store Scenario.w_month)
             Scenario.admin_uid 3 2024 in
  length (Dashboard.tenants d)
  = (length (Dashboard.paidTenants d) + length (Dashboard.dueTenants d))%nat
  /\ length (Dashboard.tenants d) = 3%nat
  /\ length (Dashboard.paidTenants d) = 2%nat.
Proof.
  intros d. split; [|by vm_compute].
  refine (proj1 (admin_totals_add_up Scenario.zod_email false Scenario.a_month
                   (mkWorld Scenario.db_seeded []) Scenario.admin_uid 3 2024
                   _ _)); [|reflexivity].
  split_and!.
  - refine (bool_decide_unpack _ _). vm_compute. exact I.
  - intros n Hn Hin. simpl in Hn, Hin.
    change ["4"; "6"] with [pretty 4%N; pretty 6%N] in Hin.
    apply elem_of_cons in Hin as [Hin|Hin%list_elem_of_singleton];
      apply (inj pretty) in Hin; lia.
  - constructor.
  - intros p Hp. simpl in Hp. by apply elem_of_nil in Hp.
Defined.

(** ** The order of what is fetched *)

Section OrderBy.
Context {A : Type} (le : A -> A -> bool) (R : relation A).
Hypothesis le_true : forall a b, le a b = true -> R a b.
Hypothesis le_false : forall a b, le a b = false -> R b a.
Hypothesis R_trans : Transitive R.

Lemma insert_sorted_StronglySorted x l :
  StronglySorted R l -> StronglySorted R (Schema.insert_sorted le x l).
Proof.
  induction 1 as [|y l Hl IH Hy]; simpl; [repeat constructor|].
  destruct (le x y) eqn:Hxy.
  - constructor; [by constructor|].
    constructor; [by apply le_true|].
    eapply Forall_impl; [exact Hy|]. intros z Hz.
    by transitivity y; [apply le_true|].
  - constructor; [done|].
    rewrite insert_sorted_Permutation. constructor; [by apply le_false|done].
Qed.

Lemma order_by_StronglySorted l : StronglySorted R (Schema.order_by le l).
Proof.
  induction l as [|x l IH]; simpl; [constructor|].
  by apply insert_sorted_StronglySorted.
Qed.
End OrderBy.

Lemma filter_none {A} (P : A -> Prop) `{!forall x, Decision (P x)} (l : list A) :
  (forall x, x ∈ l -> ~ P x) -> filter P l = [].
Proof.
  induction l as [|x l IH]; intros HP; [done|].
  rewrite filter_cons_False by (apply HP; left).
  apply IH. intros y Hy. apply HP. by right.
Qed.

Lemma StronglySorted_filter {A} (R : relation A) (P : A -> Prop)
    `{!forall x, Decision (P x)} (l : list A) :
  StronglySorted R l -> StronglySorted R (filter P l).
Proof.
  induction 1 as [|x l Hl IH Hx]; [constructor|].
  rewrite filter_cons. destruct (decide (P x)); [|done].
  constructor; [done|]. apply Forall_forall. intros y Hy%list_elem_of_filter.
  rewrite Forall_forall in Hx. apply Hx, Hy.
Qed.

#[local] Instance newer_first_trans : Transitive newer_first.
Proof. unfold newer_first. intros a b c. lia. Qed.

#[local] Instance later_period_first_trans : Transitive later_period_first.
Proof. unfold later_period_first. intros a b c. lia. Qed.

Lemma newest_first_sorted (l : list maintenance_request_row) :
  StronglySorted newer_first
    (Schema.order_by (fun a b => mr_created_at b <=? mr_created_at a) l).
Proof.
  apply order_by_StronglySorted; [| |apply _]; unfold newer_first; intros a b.
  - by intros ?%Z.leb_le.
  - intros ?%Z.leb_gt. lia.
Qed.

(** X4. The payments a tenant is shown are exactly the visible ones,
    each once, latest period first: by year, then by month, both
    descending. *)
Theorem fetchPayments_latest_first (db : DB) (uid : uuid) :
  MyRentHistory.fetchPayments db uid ≡ₚ Schema.select_rent_payments db uid
  /\ StronglySorted later_period_first (MyRentHistory.fetchPayments db uid).
Proof.
  split; [apply order_by_Permutation|].
  apply order_by_StronglySorted; [| |apply _];
    unfold later_period_first; intros a b.
  - intros [?%Z.ltb_lt|[?%Z.eqb_eq ?%Z.leb_le]%andb_true_iff]%orb_true_iff;
      [by left|by right].
  - intros [?%Z.ltb_ge Hb]%orb_false_iff.
    apply andb_false_iff in Hb as [?%Z.eqb_neq|?%Z.leb_gt]; lia.
Qed.

(** X5. The maintenance page lists exactly the visible requests the
    filter keeps, each once, newest first; with the filter on a
    status, the card of the other status shows zero and the total is
    the count of that status. *)
Theorem fetchRequests_newest_first (db : DB) (uid : uuid)
    (f : MaintenanceManagement.Filter) :
  let requests := MaintenanceManagement.fetchRequests db uid f in
  StronglySorted newer_first requests
  /\ requests
     ≡ₚ match MaintenanceManagement.filter_status f with
        | Some s => filter (fun r => mr_status r = s)
                      (Schema.select_maintenance_requests db uid)
        | None => Schema.select_maintenance_requests db uid
        end
  /\ (f = MaintenanceManagement.open ->
      MaintenanceManagement.openCount requests = length requests
      /\ MaintenanceManagement.resolvedCount requests = 0%nat)
  /\ (f = MaintenanceManagement.resolved ->
      MaintenanceManagement.resolvedCount requests = length requests
      /\ MaintenanceManagement.openCount requests = 0%nat).
Proof.
  intros requests. subst requests. unfold MaintenanceManagement.fetchRequests.
  split_and!.
  - destruct (MaintenanceManagement.filter_status f) as [s|];
      [apply StronglySorted_filter|]; apply newest_first_sorted.
  - destruct (MaintenanceManagement.filter_status f) as [s|];
      by rewrite order_by_Permutation.
  - intros ->. simpl.
    unfold MaintenanceManagement.openCount, MaintenanceManagement.resolvedCount.
    rewrite list_filter_filter_l by done. split; [done|].
    rewrite filter_none; [done|].
    intros r [Hr _]%list_elem_of_filter. by rewrite Hr.
  - intros ->. simpl.
    unfold MaintenanceManagement.openCount, MaintenanceManagement.resolvedCount.
    rewrite list_filter_filter_l by done. split; [done|].
    rewrite filter_none; [done|].
    intros r [Hr _]%list_elem_of_filter. by rewrite Hr.
Qed.

(** X6. The open requests on the admin dashboard are at most five,
    all open, newest first, and none of the open requests left out is
    newer than one that is shown. *)
Theorem dashboard_shows_five_newest_open (db : DB) (uid : uuid) (m y : Z) :
  let open_rows :=
    Schema.order_by (fun a b => mr_created_at b <=? mr_created_at a)
      (filter (fun r => mr_status r = "open")
         (Schema.select_maintenance_requests db uid)) in
  let shown := Dashboard.openRequests (Dashboard.fetchAdminData db uid m y) in
  (length shown <= 5)%nat
  /\ (forall r, r ∈ shown -> mr_status r = "open")
  /\ StronglySorted newer_first shown
  /\ shown ++ drop 5 open_rows
     ≡ₚ filter (fun r => mr_status r = "open")
          (Schema.select_maintenance_requests db uid)
  /\ (forall r r', r ∈ shown -> r' ∈ drop 5 open_rows ->
        mr_created_at r' <= mr_created_at r).
Proof.
  intros open_rows shown. subst shown. unfold Dashboard.fetchAdminData.
  cbn [Dashboard.openRequests]. fold open_rows.
  pose proof (newest_first_sorted
                (filter (fun r => mr_status r = "open")
                   (Schema.select_maintenance_requests db uid))) as Hsorted.
  fold open_rows in Hsorted. rewrite <- (take_drop 5 open_rows) in Hsorted.
  split_and!.
  - rewrite length_take. lia.
  - intros r Hr%elem_of_take. destruct Hr as (i & Hi & _).
    apply list_elem_of_lookup_2 in Hi. unfold open_rows in Hi.
    rewrite order_by_elem_of in Hi. by apply list_elem_of_filter in Hi as [? _].
  - by apply StronglySorted_app_1_l in Hsorted.
  - rewrite take_drop. apply order_by_Permutation.
  - intros r r' Hr Hr'.
    apply (StronglySorted_app_1_elem_of _ _ _ r r' Hsorted Hr Hr').
Qed.

(** ** The counts of the maintenance page *)

Lemma count_open_resolved (l : list maintenance_request_row) :
  Forall status_valid l ->
  length l
  = (MaintenanceManagement.openCount l + MaintenanceManagement.resolvedCount l)%nat.
Proof.
  unfold MaintenanceManagement.openCount, MaintenanceManagement.resolvedCount.
  induction 1 as [|r l [Hr|Hr] _ IH]; [done| |];
    rewrite !filter_cons, Hr; repeat case_decide; try done; simpl; lia.
Qed.

Lemma step_status_valid zod_email b w op :
  Forall status_valid (maintenance_requests (store w)) ->
  Forall status_valid (maintenance_requests (store (App.step zod_email b w op))).
Proof.
  intros Hw.
  destruct (step_requests zod_email b w op)
    as [->|[(i & t & rn & s & ->)|(sel & ->)]]; [done| |].
  - apply Forall_app. split; [done|]. apply Forall_singleton. by left.
  - apply Forall_fmap. eapply Forall_impl; [exact Hw|].
    intros r Hr. simpl. destruct (sel r); [by right|done].
Qed.

Lemma run_status_valid zod_email b ops w :
  Forall status_valid (maintenance_requests (store w)) ->
  Forall status_valid (maintenance_requests (store (App.run zod_email b ops w))).
Proof.
  revert w. induction ops as [|op ops IH]; intros w Hw; [done|].
  simpl. apply IH. by apply step_status_valid.
Qed.

(** X7. In every state reached from a store whose requests are open or
    resolved, every request is open or resolved, and on the
    maintenance page with the filter on all, Total Requests is Open
    plus Resolved, for any viewer. *)
Theorem total_requests_is_open_plus_resolved (zod_email : string -> bool)
    (pg_error_is_Error : bool) (ops : list App.Op) (w : World) (uid : uuid) :
  Forall status_valid (maintenance_requests (store w)) ->
  let db := store (App.run zod_email pg_error_is_Error ops w) in
  let requests :=
    MaintenanceManagement.fetchRequests db uid MaintenanceManagement.all in
  Forall status_valid (maintenance_requests db)
  /\ length requests
     = (MaintenanceManagement.openCount requests
        + MaintenanceManagement.resolvedCount requests)%nat.
Proof.
  intros Hw db requests.
  assert (Hdb : Forall status_valid (maintenance_requests db))
    by by apply run_status_valid.
  split; [done|]. apply count_open_resolved. subst requests.
  unfold MaintenanceManagement.fetchRequests. simpl.
  rewrite order_by_Permutation. unfold Schema.select_maintenance_requests.
  apply Forall_forall. intros r [_ Hr]%list_elem_of_filter.
  rewrite Forall_forall in Hdb. by apply Hdb.
Qed.

(** X7 on the scenario. *)
Lemma total_requests_is_open_plus_resolved_witness :
  let requests :=
    MaintenanceManagement.fetchRequests (store Scenario.w_month)
      Scenario.admin_uid MaintenanceManagement.all in
  length requests
  = (MaintenanceManagement.openCount requests
     + MaintenanceManagement.resolvedCount requests)%nat
  /\ MaintenanceManagement.resolvedCount requests = 1%nat.
Proof.
  intros requests. split; [|by vm_compute].
  refine (proj2 (total_requests_is_open_plus_resolved Scenario.zod_email false
                   Scenario.a_month (mkWorld Scenario.db_seeded [])
                   Scenario.admin_uid _)).
  constructor.
Defined.

(** ** Resolving a request *)

Lemma resolve_request_store uid client_now id w :
  let r := MaintenanceManagement.handleResolve uid client_now id w in
  r.1 = MaintenanceManagement.RequestResolved
  /\ calls r.2 = calls w ++ [CallUpdate "maintenance_requests"]
  /\ store r.2
     = Schema.with_maintenance_requests (store w)
         ((fun r => if Schema.has_role (store w) uid admin
                       && String.eqb (mr_id r) id
                    then resolved_at_time r client_now else r)
          <$> maintenance_requests (store w)).
Proof. unfold MaintenanceManagement.handleResolve. handler_paths; done. Qed.

Lemma with_maintenance_requests_same db :
  Schema.with_maintenance_requests db (maintenance_requests db) = db.
Proof. by destruct db. Qed.

Lemma resolve_counts id c (l : list maintenance_request_row) :
  Forall status_valid l ->
  let l' := (fun r => if String.eqb (mr_id r) id
                      then resolved_at_time r c else r) <$> l in
  (MaintenanceManagement.openCount l' + length (open_with_id id l))%nat
  = MaintenanceManagement.openCount l
  /\ MaintenanceManagement.resolvedCount l'
     = (MaintenanceManagement.resolvedCount l + length (open_with_id id l))%nat.
Proof.
  unfold MaintenanceManagement.openCount, MaintenanceManagement.resolvedCount,
    open_with_id.
  induction 1 as [|r l Hr _ IH]; [done|]. cbv zeta in *.
  destruct IH as [IHo IHr]. rewrite fmap_cons, !filter_cons.
  destruct (String.eqb_spec (mr_id r) id) as [Hid|Hid];
    destruct Hr as [Hr|Hr]; unfold resolved_at_time at 1 2;
    cbn [mr_status mr_id]; rewrite ?Hr;
    repeat case_decide; cbn [length]; try lia; try naive_solver.
Qed.

(** X8. When an admin resolves the requests of id [id] in a store
    whose requests are open or resolved, as many requests leave the
    open count as join the resolved count, namely the open requests of
    that id, and no request appears or disappears. *)
Theorem resolve_moves_open_to_resolved (uid : uuid) (client_now : Z)
    (id : uuid) (w : World) :
  Schema.has_role (store w) uid admin = true ->
  Forall status_valid (maintenance_requests (store w)) ->
  let l := maintenance_requests (store w) in
  let l' := maintenance_requests
              (store (MaintenanceManagement.handleResolve uid client_now id w).2) in
  let k := length (open_with_id id l) in
  length l' = length l
  /\ (MaintenanceManagement.openCount l' + k)%nat
     = MaintenanceManagement.openCount l
  /\ MaintenanceManagement.resolvedCount l'
     = (MaintenanceManagement.resolvedCount l + k)%nat.
Proof.
  intros Hadm Hvalid l l' k. subst l l' k.
  rewrite resolve_request_requests, Hadm. simpl.
  split; [by rewrite length_fmap|]. by apply resolve_counts.
Qed.

(** X8 on the scenario: the one open request of the month. *)
Lemma resolve_moves_open_to_resolved_witness :
  let w := Scenario.submit_at Scenario.w0 100 in
  let l := maintenance_requests (store w) in
  let l' := maintenance_requests
              (store (MaintenanceManagement.handleResolve
                        Scenario.admin_uid 150 "7" w).2) in
  MaintenanceManagement.openCount l = 1%nat
  /\ (MaintenanceManagement.openCount l' + 1)%nat
     = MaintenanceManagement.openCount l
  /\ MaintenanceManagement.resolvedCount l'
     = (MaintenanceManagement.resolvedCount l + 1)%nat.
Proof.
  intros w l l'. split; [reflexivity|].
  refine (proj2 (resolve_moves_open_to_resolved Scenario.admin_uid 150 "7" w
                   _ _)); [reflexivity|].
  repeat constructor.
Defined.

(** X9. A resolution by a principal that is not an admin, or for an id
    no request has, changes nothing in the store, and still ends with
    the toast of a successful resolution. *)
Theorem resolve_without_effect (uid : uuid) (client_now : Z) (id : uuid)
    (w : World) :
  Schema.has_role (store w) uid admin = false
  \/ (forall r, r ∈ maintenance_requests (store w) -> mr_id r <> id) ->
  let r := MaintenanceManagement.handleResolve uid client_now id w in
  r.1 = MaintenanceManagement.RequestResolved
  /\ store r.2 = store w
  /\ calls r.2 = calls w ++ [CallUpdate "maintenance_requests"].
Proof.
  intros Hno r.
  destruct (resolve_request_store uid client_now id w) as (Ht & Hc & Hs).
  split; [done|]. split; [|done]. subst r. rewrite Hs.
  rewrite <- (with_maintenance_requests_same (store w)) at 3. f_equal.
  rewrite <- (list_fmap_id (maintenance_requests (store w))) at 2.
  apply list_fmap_ext. intros i r Hr. destruct Hno as [->|Hno]; [done|].
  apply list_elem_of_lookup_2, Hno in Hr.
  apply String.eqb_neq in Hr. by rewrite Hr, andb_false_r.
Qed.

(** X9 on the scenario: tenant B presses resolve on the request of A. *)
Lemma resolve_without_effect_witness :
  let w := Scenario.submit_at Scenario.w0 100 in
  let r := MaintenanceManagement.handleResolve Scenario.uid_B 150 "7" w in
  r.1 = MaintenanceManagement.RequestResolved /\ store r.2 = store w.
Proof.
  intros w r.
  destruct (resolve_without_effect Scenario.uid_B 150 "7" w) as (H1 & H2 & _);
    [left; reflexivity|].
  split; [exact H1 | exact H2].
Defined.

(** X10. Resolving the same id a second time leaves in the store what
    the second resolution alone would have left: the rows stay
    resolved and [resolved_at] is overwritten by the later reading. *)
Theorem resolve_twice_keeps_the_later (uid : uuid) (c1 c2 : Z) (id : uuid)
    (w : World) :
  store (MaintenanceManagement.handleResolve uid c2 id
           (MaintenanceManagement.handleResolve uid c1 id w).2).2
  = store (MaintenanceManagement.handleResolve uid c2 id w).2.
Proof.
  destruct (resolve_request_store uid c1 id w) as (_ & _ & H1).
  destruct (resolve_request_store uid c2 id
              (MaintenanceManagement.handleResolve uid c1 id w).2)
    as (_ & _ & H12).
  destruct (resolve_request_store uid c2 id w) as (_ & _ & H2).
  rewrite H12, H2, H1.
  change (Schema.has_role (Schema.with_maintenance_requests (store w) _) uid admin)
    with (Schema.has_role (store w) uid admin).
  unfold Schema.with_maintenance_requests.
  cbn [uuid_seq auth_users profiles user_roles tenants rent_payments
       maintenance_requests]. f_equal.
  rewrite <- list_fmap_compose. apply list_fmap_ext. intros i r _. simpl.
  destruct (Schema.has_role (store w) uid admin); [|done]. simpl.
  destruct (String.eqb (mr_id r) id) eqn:Hid; simpl; by rewrite Hid.
Qed.

(** ** The form of a new tenant *)

Lemma string_issues_nil s lo msg hi :
  TenantManagement.string_issues s lo msg hi = []
  <-> (lo <= String.length s <= hi)%nat.
Proof.
  unfold TenantManagement.string_issues.
  destruct (Nat.ltb_spec (String.length s) lo);
    destruct (Nat.ltb_spec hi (String.length s)); simpl; split;
    (done || lia).
Qed.

(** X11. The form of a new tenant is accepted exactly when the name
    has 1 to 100 characters, the room 1 to 10, the contact 10 to 15,
    the deposit is not negative, the email passes zod's check and the
    password has at least 6 characters; otherwise the handler shows
    the first issue in the order of the schema and issues no call; an
    accepted form always starts with the sign-up. *)
Theorem tenantSchema_accepts_iff (zod_email : string -> bool)
    (pg_error_is_Error : bool) (uid : uuid) (now : Z)
    (f : TenantManagement.FormData) (w : World) :
  (TenantManagement.tenantSchema_issues zod_email f = []
   <-> (1 <= String.length (TenantManagement.name f) <= 100)%nat
       /\ (1 <= String.length (TenantManagement.room_no f) <= 10)%nat
       /\ (10 <= String.length (TenantManagement.contact f) <= 15)%nat
       /\ 0 <= TenantManagement.deposit_amount f
       /\ zod_email (TenantManagement.email f) = true
       /\ (6 <= String.length (TenantManagement.password f))%nat)
  /\ let r := TenantManagement.handleSubmit zod_email pg_error_is_Error
                uid now f w in
     match TenantManagement.tenantSchema_issues zod_email f with
     | [] => exists rest, calls r.2 = calls w ++ CallSignUp :: rest
     | first :: _ => r = (mkToast "Validation error" first true, w)
     end.
Proof.
  split.
  - unfold TenantManagement.tenantSchema_issues.
    rewrite !app_nil, !string_issues_nil.
    destruct (Z.ltb_spec (TenantManagement.deposit_amount f) 0);
      destruct (zod_email (TenantManagement.email f));
      destruct (Nat.ltb_spec (String.length (TenantManagement.password f)) 6);
      split; intros; destruct_and?; split_and?; (done || lia).
  - unfold TenantManagement.handleSubmit, TenantManagement.tenantSchema_parse.
    destruct (TenantManagement.tenantSchema_issues zod_email f) as [|first rest];
      [|done].
    handler_paths; rewrite <- ?app_assoc; eauto.
Qed.

(** ** Submitting a request *)

Lemma fetchTenantInfo_owns db uid info :
  SubmitRequest.fetchTenantInfo db uid = Some info ->
  Schema.owns db uid (SubmitRequest.id info) = true
  /\ Schema.tenant_exists db (SubmitRequest.id info) = true
  /\ exists t, t ∈ tenants db /\ t_auth_user_id t = Some uid
               /\ SubmitRequest.id info = t_id t
               /\ SubmitRequest.room_no info = t_room_no t.
Proof.
  unfold SubmitRequest.fetchTenantInfo, Schema.select_tenants.
  rewrite list_filter_filter_l.
  2:{ intros t Ht. unfold Schema.tenants_select_policy.
      rewrite Ht, bool_decide_true by done. by rewrite orb_true_r. }
  destruct (filter _ (tenants db)) as [|t [|]] eqn:Hf; [done| |done].
  intros [= <-]. simpl.
  assert (Ht : t ∈ filter (fun t => t_auth_user_id t = Some uid) (tenants db))
    by (rewrite Hf; left).
  apply list_elem_of_filter in Ht as [Hlink Ht].
  split_and!.
  - apply owns_iff. unfold Schema.get_tenant_id_for_user. by rewrite Hf.
  - apply tenant_exists_iff. by apply list_elem_of_fmap_2.
  - eauto.
Qed.

(** X12. A principal whose tenant record was fetched by the page, with
    a description of 10 to 1000 characters, always succeeds: one open
    request is appended, carrying the id and the room of that record
    and the text as typed, dated by the store and not resolved; it is
    among the open requests the principal's dashboard fetches next. *)
Theorem submit_request_succeeds (uid : uuid) (now : Z)
    (info : SubmitRequest.TenantInfo) (s : string) (w : World) :
  SubmitRequest.fetchTenantInfo (store w) uid = Some info ->
  (10 <= String.length s <= 1000)%nat ->
  let r := SubmitRequest.handleSubmit uid now (Some info) s w in
  let row :=
    mk_maintenance_request (pretty (uuid_seq (store w)))
      (SubmitRequest.id info) (SubmitRequest.room_no info) s "open" now None in
  r.1 = SubmitRequest.RequestSubmitted
  /\ maintenance_requests (store r.2) = maintenance_requests (store w) ++ [row]
  /\ row ∈ Dashboard.fetchTenantData (store r.2) uid.
Proof.
  intros Hinfo Hlen r row.
  destruct (fetchTenantInfo_owns _ _ _ Hinfo) as (Hown & Hex & _).
  assert (Hr : r = (SubmitRequest.RequestSubmitted,
                    mkWorld
                      (Schema.with_maintenance_requests
                         (Schema.gen_random_uuid (store w)).2
                         (maintenance_requests (store w) ++ [row]))
                      (calls w ++ [CallInsert "maintenance_requests"]))).
  { subst r.
    unfold SubmitRequest.handleSubmit, SubmitRequest.requestSchema_parse.
    destruct (Nat.ltb_spec (String.length s) 10); [lia|].
    destruct (Nat.ltb_spec 1000 (String.length s)); [lia|].
    unfold_client. unfold Schema.insert_maintenance_request,
      Schema.maintenance_requests_insert_policy.
    by rewrite Hown, orb_true_r, Hex. }
  rewrite Hr. cbn [fst snd store]. split; [done|]. split; [done|].
  unfold Dashboard.fetchTenantData. rewrite order_by_elem_of.
  apply list_elem_of_filter. split; [done|].
  apply list_elem_of_filter. split.
  - unfold Schema.maintenance_requests_select_policy.
    change (Schema.owns _ uid (mr_tenant_id row))
      with (Schema.owns (store w) uid (SubmitRequest.id info)).
    by rewrite Hown, orb_true_r.
  - simpl. apply elem_of_app. right. left.
Qed.

(** X12 on the scenario: tenant A, ten characters. *)
Lemma submit_request_succeeds_witness :
  let r := SubmitRequest.handleSubmit Scenario.uid_A 2000
             (Some Scenario.info_A) (Scenario.text_of_length 10) Scenario.w0 in
  SubmitRequest.fetchTenantInfo Scenario.db0 Scenario.uid_A = Some Scenario.info_A
  /\ r.1 = SubmitRequest.RequestSubmitted
  /\ length (Dashboard.fetchTenantData (store r.2) Scenario.uid_A) = 1%nat.
Proof.
  intros r. split; [reflexivity|].
  destruct (submit_request_succeeds Scenario.uid_A 2000 Scenario.info_A
              (Scenario.text_of_length 10) Scenario.w0) as (H1 & _ & _);
    [reflexivity | split; apply Nat.leb_le; reflexivity |].
  split; [exact H1 | reflexivity].
Defined.

(** X13. Whatever tenant record the page holds, a principal that is
    not an admin can only add a request of the tenant record the store
    links it to: every row of the table after the submission was there
    before or carries that tenant id, is open and not resolved. *)
Theorem submit_request_only_for_own_tenant (uid : uuid) (now : Z)
    (tenantInfo : option SubmitRequest.TenantInfo) (s : string) (w : World) :
  Schema.has_role (store w) uid admin = false ->
  let r := SubmitRequest.handleSubmit uid now tenantInfo s w in
  forall row, row ∈ maintenance_requests (store r.2) ->
    row ∈ maintenance_requests (store w)
    \/ (Some (mr_tenant_id row) = Schema.get_tenant_id_for_user (store w) uid
        /\ mr_status row = "open" /\ mr_resolved_at row = None
        /\ mr_issue_description row = s).
Proof.
  intros Hadm r row. subst r.
  unfold SubmitRequest.handleSubmit, SubmitRequest.requestSchema_parse.
  destruct tenantInfo as [info|]; [|by left].
  unfold_client.
  destruct (String.length s <? 10)%nat; [by left|].
  destruct (1000 <? String.length s)%nat; [by left|].
  unfold Schema.insert_maintenance_request,
    Schema.maintenance_requests_insert_policy. rewrite Hadm. simpl.
  destruct (Schema.owns (store w) uid (SubmitRequest.id info)) eqn:Hown;
    simpl; [|by left].
  destruct (Schema.tenant_exists (store w) (SubmitRequest.id info));
    simpl; [|by left].
  intros [Hrow| ->%list_elem_of_singleton]%elem_of_app; [by left|].
  right. simpl. split; [by apply owns_iff|done].
Qed.

(** X13 on the scenario: tenant B submits under the record of A. *)
Lemma submit_request_only_for_own_tenant_witness :
  let r := SubmitRequest.handleSubmit Scenario.uid_B 2000
             (Some Scenario.info_A) (Scenario.text_of_length 10) Scenario.w0 in
  Schema.has_role Scenario.db0 Scenario.uid_B admin = false
  /\ maintenance_requests (store r.2) = []
  /\ forall row, row ∈ maintenance_requests (store r.2) ->
       row ∈ maintenance_requests (store Scenario.w0)
       \/ (Some (mr_tenant_id row)
           = Schema.get_tenant_id_for_user (store Scenario.w0) Scenario.uid_B
           /\ mr_status row = "open" /\ mr_resolved_at row = None
           /\ mr_issue_description row = Scenario.text_of_length 10).
Proof.
  intros r. split; [reflexivity|]. split; [reflexivity|].
  apply (submit_request_only_for_own_tenant Scenario.uid_B 2000
           (Some Scenario.info_A) (Scenario.text_of_length 10) Scenario.w0).
  reflexivity.
Defined.

(** ** The admin pages without the admin role *)

Lemma tenant_select_tenants db uid :
  Schema.has_role db uid admin = false ->
  Schema.select_tenants db uid
  = filter (fun t => t_auth_user_id t = Some uid) (tenants db).
Proof.
  intros Hadm. apply list_filter_iff. intros t.
  unfold Schema.tenants_select_policy. rewrite Hadm. simpl.
  rewrite bool_decide_spec. naive_solver.
Qed.

(** X14. The role the client believes in grants no row: when the
    admin pages are rendered for a principal that is not an admin in
    the store, the tenants fetched are the records linked to that
    principal, and the payments and requests fetched are those of its
    own tenant record. *)
Theorem admin_pages_fetch_only_own_rows (db : DB) (uid : uuid) (m y : Z)
    (f : MaintenanceManagement.Filter) :
  Schema.has_role db uid admin = false ->
  let own := Schema.get_tenant_id_for_user db uid in
  let d := Dashboard.fetchAdminData db uid m y in
  let fd := RentTracking.fetchData db uid m y in
  (forall t, t ∈ Dashboard.tenants d \/ t ∈ fd.1
             \/ t ∈ TenantManagement.fetchTenants db uid ->
     t_auth_user_id t = Some uid)
  /\ (forall i, i ∈ Dashboard.paidTenants d -> Some i = own)
  /\ (forall p, p ∈ fd.2 -> Some (rp_tenant_id p) = own)
  /\ (forall r, r ∈ Dashboard.openRequests d
                \/ r ∈ MaintenanceManagement.fetchRequests db uid f ->
        Some (mr_tenant_id r) = own).
Proof.
  intros Hadm own d fd. subst d fd.
  unfold Dashboard.fetchAdminData, RentTracking.fetchData,
    TenantManagement.fetchTenants, MaintenanceManagement.fetchRequests.
  cbn [Dashboard.tenants Dashboard.paidTenants Dashboard.openRequests fst snd].
  rewrite tenant_select_tenants, tenant_select_rent_payments,
    tenant_select_maintenance_requests by done.
  fold own. split_and!.
  - intros t. rewrite !order_by_elem_of, !list_elem_of_filter. naive_solver.
  - intros i (p & -> & Hp)%list_elem_of_fmap.
    rewrite !list_elem_of_filter in Hp. naive_solver.
  - intros p. rewrite order_by_elem_of, !list_elem_of_filter. naive_solver.
  - intros r [Hr%elem_of_take|Hr].
    + destruct Hr as (i & Hi%list_elem_of_lookup_2 & _).
      rewrite order_by_elem_of, !list_elem_of_filter in Hi. naive_solver.
    + destruct (MaintenanceManagement.filter_status f);
        rewrite ?list_elem_of_filter, order_by_elem_of, list_elem_of_filter in Hr;
        naive_solver.
Qed.

(** X14 on the scenario: tenant B on the admin dashboard of March 2024. *)
Lemma admin_pages_fetch_only_own_rows_witness :
  let d := Dashboard.fetchAdminData Scenario.db1 Scenario.uid_B 3 2024 in
  Schema.has_role Scenario.db1 Scenario.uid_B admin = false
  /\ Dashboard.tenants d = [Scenario.tenant_B]
  /\ forall i, i ∈ Dashboard.paidTenants d ->
       Some i = Schema.get_tenant_id_for_user Scenario.db1 Scenario.uid_B.
Proof.
  intros d. split; [reflexivity|]. split; [reflexivity|].
  destruct (admin_pages_fetch_only_own_rows Scenario.db1 Scenario.uid_B 3 2024
              MaintenanceManagement.all) as (_ & H & _); [reflexivity|].
  exact H.
Defined.

Lemma sign_up_keeps_tables email password db u db1 :
  Schema.auth_signUp email password db = inr (u, db1) ->
  rent_payments db1 = rent_payments db
  /\ maintenance_requests db1 = maintenance_requests db
  /\ uuid_seq db1 = N.succ (uuid_seq db)
  /\ au_id u = pretty (uuid_seq db).
Proof.
  unfold Schema.auth_signUp, Schema.gen_random_uuid.
  destruct (existsb _ (auth_users db)); [done|]. by intros [= <- <-].
Qed.

(** X15. An operation issued by a principal that is not an admin
    never changes the tenants, the payments or the roles, whichever
    page it comes from and whatever it carries. *)
Theorem non_admin_cannot_write_admin_tables (zod_email : string -> bool)
    (pg_error_is_Error : bool) (w : World) (op : App.Op) :
  Schema.has_role (store w) (App.op_uid op) admin = false ->
  let db' := store (App.step zod_email pg_error_is_Error w op) in
  tenants db' = tenants (store w)
  /\ rent_payments db' = rent_payments (store w)
  /\ user_roles db' = user_roles (store w).
Proof.
  destruct op as [uid now info s|uid c id|uid now f|uid now f];
    unfold App.step, App.op_uid; intros Hadm.
  - unfold SubmitRequest.handleSubmit, SubmitRequest.requestSchema_parse.
    handler_paths; done.
  - unfold MaintenanceManagement.handleResolve. handler_paths; done.
  - unfold RentTracking.handleSubmit. unfold_client.
    unfold Schema.insert_rent_payment, Schema.rent_payments_write_policy.
    rewrite Hadm. by destruct (Schema.numeric_10_2_fits _).
  - unfold TenantManagement.handleSubmit, TenantManagement.tenantSchema_parse.
    unfold_client.
    destruct (TenantManagement.tenantSchema_issues zod_email f); [|done].
    destruct (Schema.auth_signUp _ _ (store w)) as [msg|[u db1]] eqn:Hsign;
      [done|].
    cbn [store calls].
    destruct (sign_up_keeps_tables _ _ _ _ _ Hsign) as (Hpay & _).
    apply sign_up_adds_user in Hsign as (_ & _ & Hroles & Hten & _).
    unfold Schema.insert_tenant, Schema.tenants_write_policy.
    rewrite (has_role_same_roles (store w) db1) by done. rewrite Hadm.
    by destruct (Schema.numeric_10_2_fits _).
Qed.

(** X15 on the scenario: tenant B records a payment for itself. *)
Lemma non_admin_cannot_write_admin_tables_witness :
  let op := App.RecordPayment Scenario.uid_B 2000
              (RentTracking.mkFormData "B" 3 2024 500000 19800) in
  rent_payments (store (App.step Scenario.zod_email false Scenario.w0 op))
  = rent_payments (store Scenario.w0).
Proof.
  intros op.
  destruct (non_admin_cannot_write_admin_tables Scenario.zod_email false
              Scenario.w0 op) as (_ & H & _); [reflexivity|].
  exact H.
Defined.

(** ** Navigation *)

Lemma active_link_unique (pathname : string) (l : list string) :
  NoDup l ->
  (length (filter (fun href => DashboardLayout.isActive pathname href) l) <= 1)%nat
  /\ (pathname ∈ l ->
      filter (fun href => DashboardLayout.isActive pathname href) l = [pathname]).
Proof.
  unfold DashboardLayout.isActive.
  induction 1 as [|x l Hx Hl [IHle IHin]].
  { split; [simpl; lia|by intros ?%elem_of_nil]. }
  rewrite filter_cons. case_decide as Heq.
  - apply Is_true_true, String.eqb_eq in Heq. subst x.
    rewrite filter_none; [split; [simpl; lia|done]|].
    intros y Hy Hpy. apply Is_true_true, String.eqb_eq in Hpy. by subst y.
  - split; [done|]. intros [->|Hin]%elem_of_cons; [|by apply IHin].
    by rewrite String.eqb_refl in Heq.
Qed.

(** X16. For a signed-in user, every link of the sidebar leads to a
    page that is shown, with no redirect and no not-found page,
    whatever the role, null included; the links of the other role,
    the dashboard apart, send an admin or a tenant back to the
    dashboard, which is shown to every signed-in user; without a user
    every link leads to the authentication page; and at most one link
    is drawn as active. *)
Theorem sidebar_links_are_consistent (user : auth_user)
    (userRole : option app_role) (pathname : string) :
  (forall href, href ∈ DashboardLayout.links userRole ->
     App.visit (Some user) userRole href = App.Shows (App.route href)
     /\ App.route href <> App.NotFoundPage /\ App.route href <> App.AuthPage)
  /\ (forall href, href ∈ DashboardLayout.adminLinks -> href <> "/" ->
        App.visit (Some user) (Some tenant) href = App.NavigateTo "/")
  /\ (forall href, href ∈ DashboardLayout.tenantLinks -> href <> "/" ->
        App.visit (Some user) (Some admin) href = App.NavigateTo "/")
  /\ App.visit (Some user) userRole "/" = App.Shows App.DashboardPage
  /\ (forall href, href ∈ DashboardLayout.links userRole ->
        App.visit None userRole href = App.NavigateTo "/auth")
  /\ (length (DashboardLayout.activeLinks userRole pathname) <= 1)%nat
  /\ (pathname ∈ DashboardLayout.links userRole ->
      DashboardLayout.activeLinks userRole pathname = [pathname]).
Proof.
  assert (Hlinks : forall href, href ∈ DashboardLayout.links userRole ->
            (userRole = Some admin
             /\ (href = "/" \/ href = "/tenants" \/ href = "/rent"
                 \/ href = "/maintenance"))
            \/ (userRole <> Some admin
                /\ (href = "/" \/ href = "/my-rent" \/ href = "/submit-request"))).
  { intros href. unfold DashboardLayout.links. case_bool_decide as Hrole.
    - unfold DashboardLayout.adminLinks. rewrite !elem_of_cons, elem_of_nil.
      naive_solver.
    - unfold DashboardLayout.tenantLinks. rewrite !elem_of_cons, elem_of_nil.
      naive_solver. }
  split_and!.
  - intros href [[-> Hh]|[Hrole Hh]]%Hlinks.
    + destruct Hh as [->|[->|[->| ->]]]; done.
    + destruct Hh as [->|[->| ->]]; [done| |];
        (destruct userRole as [[]|]; done).
  - intros href. unfold DashboardLayout.adminLinks.
    rewrite !elem_of_cons, elem_of_nil. intros [->|[->|[->|[->|[]]]]] Hne; done.
  - intros href. unfold DashboardLayout.tenantLinks.
    rewrite !elem_of_cons, elem_of_nil. intros [->|[->|[->|[]]]] Hne; done.
  - done.
  - intros href [[_ Hh]|[_ Hh]]%Hlinks.
    + destruct Hh as [->|[->|[->| ->]]]; done.
    + destruct Hh as [->|[->| ->]]; done.
  - apply active_link_unique. unfold DashboardLayout.links.
    case_bool_decide; refine (bool_decide_unpack _ _); vm_compute; exact I.
  - apply active_link_unique. unfold DashboardLayout.links.
    case_bool_decide; refine (bool_decide_unpack _ _); vm_compute; exact I.
Qed.

(** ** The period selectors and the stored periods *)

Lemma month_name_defined (month : Z) :
  is_Some (month_name month) <-> 1 <= month <= 12.
Proof.
  unfold month_name. destruct (Z.ltb_spec (month - 1) 0) as [Hlt|Hge].
  - split; [by intros [? ?]|lia].
  - rewrite lookup_lt_is_Some. change (length MONTHS) with 12%nat. lia.
Qed.

Lemma month_options_range (month : Z) :
  month ∈ month_options <-> 1 <= month <= 12.
Proof.
  change month_options with [1; 2; 3; 4; 5; 6; 7; 8; 9; 10; 11; 12].
  rewrite !elem_of_cons, elem_of_nil. lia.
Qed.

Lemma years_range (currentYear year : Z) :
  year ∈ years currentYear <-> currentYear - 4 <= year <= currentYear.
Proof.
  unfold years. cbn [seq fmap list_fmap Z.of_nat].
  rewrite !elem_of_cons, elem_of_nil. lia.
Qed.

(** X17. [MONTHS[month - 1]] is defined exactly for the months 1 to
    12; the month selector offers exactly these twelve values; the
    year selector offers the current year and the four before it, and
    all of them pass the year check of the store exactly when the
    current year is between 2004 and 2100. *)
Theorem period_selectors (currentYear : Z) :
  (forall month, is_Some (month_name month) <-> 1 <= month <= 12)
  /\ (forall month, month ∈ month_options <-> 1 <= month <= 12)
  /\ (forall year, year ∈ years currentYear
                   <-> currentYear - 4 <= year <= currentYear)
  /\ ((forall year, year ∈ years currentYear -> 2000 <= year <= 2100)
      <-> 2004 <= currentYear <= 2100).
Proof.
  split; [apply month_name_defined|]. split; [apply month_options_range|].
  split; [apply years_range|]. split.
  - intros Hall.
    assert (H0 : currentYear ∈ years currentYear) by (apply years_range; lia).
    assert (H4 : currentYear - 4 ∈ years currentYear)
      by (apply years_range; lia).
    apply Hall in H0, H4. lia.
  - intros Hcy year Hy%years_range. lia.
Qed.

(** X18. A payment entered by an admin through the selectors of the
    form, for a tenant of the list and an amount that fits the column,
    in a year between 2004 and 2100, has two outcomes and no other.
    When no payment of that tenant, month and year is in the store, it
    is recorded: the toast is the one of success and the store holds
    one more payment, the last one, with the fields of the form. When
    there is one, the toast is the one of the duplicate and the store
    is as it was. In both cases the month has a name in [MONTHS]. *)
Theorem form_payment_recorded_or_duplicate (pg_error_is_Error : bool)
    (uid : uuid) (now currentYear : Z) (f : RentTracking.FormData) (w : World) :
  Schema.has_role (store w) uid admin = true ->
  RentTracking.tenant_id f ∈ t_id <$> (RentTracking.fetchData (store w) uid
                                         (RentTracking.month f)
                                         (RentTracking.year f)).1 ->
  RentTracking.month f ∈ month_options ->
  RentTracking.year f ∈ years currentYear ->
  2004 <= currentYear <= 2100 ->
  Schema.numeric_10_2_fits (RentTracking.amount f) = true ->
  let r := RentTracking.handleSubmit pg_error_is_Error uid now f w in
  let key :=
    (RentTracking.tenant_id f, RentTracking.month f, RentTracking.year f) in
  let row :=
    mk_rent_payment (pretty (uuid_seq (store w))) (RentTracking.tenant_id f)
      (RentTracking.month f) (RentTracking.year f) (RentTracking.amount f)
      (RentTracking.paid_on f) now in
  (((key ∉ payment_key <$> rent_payments (store w))
    /\ r.1 = RentTracking.PaymentRecorded
    /\ rent_payments (store r.2) = rent_payments (store w) ++ [row]
    /\ tenants (store r.2) = tenants (store w))
   \/ ((key ∈ payment_key <$> rent_payments (store w))
       /\ r.1 = RentTracking.DuplicatePayment
       /\ store r.2 = store w))
  /\ is_Some (month_name (RentTracking.month f)).
Proof.
  intros Hadm Hten Hm Hy Hcy Hfit r key row.
  apply month_options_range in Hm. apply years_range in Hy.
  split; [|by apply month_name_defined].
  assert (Hex : Schema.tenant_exists (store w) (RentTracking.tenant_id f) = true).
  { apply tenant_exists_iff. unfold RentTracking.fetchData in Hten.
    cbn [fst] in Hten. apply list_elem_of_fmap in Hten as (t & -> & Ht).
    rewrite order_by_elem_of, admin_select_tenants in Ht by done.
    by apply list_elem_of_fmap_2. }
  subst r key.
  destruct (Schema.payment_recorded (store w) (RentTracking.tenant_id f)
              (RentTracking.month f) (RentTracking.year f)) eqn:Hrec.
  - right. split; [by apply payment_recorded_iff|].
    rewrite record_payment_duplicate; (done || lia).
  - left. split.
    + intros Hin%payment_recorded_iff. congruence.
    + rewrite record_payment_accepted; (done || lia).
Qed.

(** X18 on the scenario: March 2024 of tenant A, entered in 2024, once
    into the store without payments and once more after that. *)
Lemma form_payment_recorded_or_duplicate_witness :
  (let r := RentTracking.handleSubmit false Scenario.admin_uid 5000
              Scenario.march_A Scenario.w0 in
   r.1 = RentTracking.PaymentRecorded
   /\ rent_payments (store r.2)
      = [mk_rent_payment "7" "A" 3 2024 500000 19800 5000])
  /\ (let r := RentTracking.handleSubmit false Scenario.admin_uid 6000
                 Scenario.march_A (mkWorld Scenario.db1 []) in
      r.1 = RentTracking.DuplicatePayment /\ store r.2 = Scenario.db1).
Proof.
  split.
  - destruct (form_payment_recorded_or_duplicate false Scenario.admin_uid 5000
                2024 Scenario.march_A Scenario.w0) as [[H|H] _].
    + reflexivity.
    + vm_compute. left.
    + vm_compute. right. right. left.
    + vm_compute. left.
    + lia.
    + reflexivity.
    + destruct H as (_ & H1 & H2 & _). split; [exact H1 | exact H2].
    + destruct H as (_ & H1 & _). discriminate H1.
  - destruct (form_payment_recorded_or_duplicate false Scenario.admin_uid 6000
                2024 Scenario.march_A (mkWorld Scenario.db1 [])) as [[H|H] _].
    + reflexivity.
    + vm_compute. left.
    + vm_compute. right. right. left.
    + vm_compute. left.
    + lia.
    + reflexivity.
    + destruct H as (_ & H1 & _). discriminate H1.
    + destruct H as (_ & H1 & H2). split; [exact H1 | exact H2].
Defined.

(** ** Provisioning, and the session after the sign-up *)

(** Following the session amounts to running [handleSubmit] as the
    principal the client acts as after the sign-up; before the sign-up
    succeeds no call depends on the session. *)
Lemma handleSubmit_session_acts_as (zod_email : string -> bool)
    (pg_error_is_Error signUp_returns_session : bool) (uid : uuid) (now : Z)
    (f : TenantManagement.FormData) (w : World) (u : auth_user) (db1 : DB) :
  Schema.auth_signUp (TenantManagement.email f) (TenantManagement.password f)
    (store w) = inr (u, db1) ->
  TenantManagement.handleSubmit_session zod_email pg_error_is_Error
    signUp_returns_session uid now f w
  = TenantManagement.handleSubmit zod_email pg_error_is_Error
      (TenantManagement.session_after_signUp signUp_returns_session uid u)
      now f w.
Proof.
  intros Hsign.
  unfold TenantManagement.handleSubmit_session, TenantManagement.handleSubmit,
    TenantManagement.tenantSchema_parse.
  destruct (TenantManagement.tenantSchema_issues zod_email f); [|done].
  unfold Client.try_catch, Client.bind, Client.ret, Client.supabase_auth_signUp.
  by rewrite Hsign.
Qed.

(** X19. An admin submits a valid form, the sign-up succeeds, the
    deposit fits the column, and the new principal has no role and no
    tenant record yet. What follows depends on the session the client
    holds after the sign-up. When the sign-up returns no session, the
    client still acts as the admin: the three calls are issued in order
    and all succeed, the principal gets the role tenant and a tenant
    record with the fields of the form, and the tenant pages then
    resolve that principal to this record and its room. When the
    sign-up returns a session, the client acts as the new principal,
    who is no admin: the insert into [tenants] is refused by the
    row-level policy, the insert into [user_roles] is not issued, the
    toast is the generic one, and the principal stays in the store with
    no tenant record and no role, so that the request page finds no
    tenant information for it. [handleSubmit] is the first case. *)
Theorem provisioning_follows_the_session (zod_email : string -> bool)
    (pg_error_is_Error signUp_returns_session : bool) (uid : uuid) (now : Z)
    (f : TenantManagement.FormData) (w : World) (u : auth_user) (db1 : DB) :
  TenantManagement.tenantSchema_issues zod_email f = [] ->
  Schema.has_role (store w) uid admin = true ->
  Schema.auth_signUp (TenantManagement.email f) (TenantManagement.password f)
    (store w) = inr (u, db1) ->
  Schema.numeric_10_2_fits (TenantManagement.deposit_amount f) = true ->
  (forall role, Schema.has_role (store w) (au_id u) role = false) ->
  (forall t, t ∈ tenants (store w) -> t_auth_user_id t <> Some (au_id u)) ->
  let r := TenantManagement.handleSubmit_session zod_email pg_error_is_Error
             signUp_returns_session uid now f w in
  let row :=
    mk_tenant (pretty (uuid_seq db1)) (TenantManagement.name f)
      (TenantManagement.room_no f) (TenantManagement.contact f)
      (TenantManagement.deposit_amount f) (Some (au_id u)) now in
  (signUp_returns_session = false ->
     r = TenantManagement.handleSubmit zod_email pg_error_is_Error uid now f w
     /\ r.1 = TenantManagement.TenantAdded f
     /\ calls r.2
        = calls w ++ [CallSignUp; CallInsert "tenants"; CallInsert "user_roles"]
     /\ tenants (store r.2) = tenants (store w) ++ [row]
     /\ user_roles (store r.2)
        = user_roles (store w) ++ [mk_user_role (au_id u) tenant]
     /\ Schema.has_role (store r.2) (au_id u) tenant = true
     /\ Schema.get_tenant_id_for_user (store r.2) (au_id u) = Some (t_id row)
     /\ SubmitRequest.fetchTenantInfo (store r.2) (au_id u)
        = Some (SubmitRequest.mkTenantInfo (t_id row) (TenantManagement.room_no f)))
  /\ (signUp_returns_session = true ->
     r.1 = mkToast "Error"
             (if pg_error_is_Error then message (Schema.rls_violation "tenants")
              else "Failed to add tenant") true
     /\ r.2 = mkWorld db1 (calls w ++ [CallSignUp; CallInsert "tenants"])
     /\ u ∈ auth_users (store r.2)
     /\ tenants (store r.2) = tenants (store w)
     /\ user_roles (store r.2) = user_roles (store w)
     /\ Schema.has_role (store r.2) (au_id u) tenant = false
     /\ SubmitRequest.fetchTenantInfo (store r.2) (au_id u) = None).
Proof.
  intros Hvalid Hadm Hsign Hfit Hnorole Hlink r row.
  destruct (sign_up_adds_user _ _ _ _ _ Hsign) as (Husers & _ & Hroles & Hten & Hex).
  assert (Hadm1 : Schema.has_role db1 uid admin = true)
    by by rewrite (has_role_same_roles (store w) db1).
  assert (Hnorole1 : forall role, Schema.has_role db1 (au_id u) role = false).
  { intros role. by rewrite (has_role_same_roles (store w) db1). }
  assert (Hrun : r = TenantManagement.handleSubmit_session zod_email
                       pg_error_is_Error signUp_returns_session uid now f w)
    by done.
  unfold TenantManagement.handleSubmit_session,
    TenantManagement.tenantSchema_parse in Hrun.
  rewrite Hvalid in Hrun.
  unfold Client.try_catch, Client.bind, Client.ret, Client.supabase_auth_signUp
    in Hrun.
  rewrite Hsign in Hrun. simpl in Hrun. unfold Client.supabase_call in Hrun.
  simpl in Hrun.
  split.
  - intros Hkept. destruct signUp_returns_session; [done|]. clear Hkept.
    unfold TenantManagement.session_after_signUp in Hrun.
    set (db2 := Schema.with_tenants (Schema.gen_random_uuid db1).2
                  (tenants db1 ++ [row])).
    set (db3 := Schema.with_user_roles db2
                  (user_roles db2 ++ [mk_user_role (au_id u) tenant])).
    assert (H2 : Schema.insert_tenant uid now (TenantManagement.name f)
                   (TenantManagement.room_no f) (TenantManagement.contact f)
                   (TenantManagement.deposit_amount f) (au_id u) db1 = inr db2).
    { unfold Schema.insert_tenant, Schema.tenants_write_policy.
      by rewrite Hfit, Hadm1, Hex. }
    assert (H3 : Schema.insert_user_role uid (au_id u) tenant db2 = inr db3).
    { unfold Schema.insert_user_role, Schema.user_roles_write_policy.
      change (Schema.has_role db2 uid admin) with (Schema.has_role db1 uid admin).
      change (Schema.has_role db2 (au_id u) tenant)
        with (Schema.has_role db1 (au_id u) tenant).
      change (Schema.user_exists db2 (au_id u))
        with (Schema.user_exists db1 (au_id u)).
      by rewrite Hadm1, Hnorole1, Hex. }
    split; [done|].
    rewrite H2 in Hrun. simpl in Hrun. rewrite H3 in Hrun. simpl in Hrun.
    rewrite <- !app_assoc in Hrun. simpl in Hrun.
    rewrite Hrun. cbn [fst snd store calls].
    assert (Hfilter : filter (fun t => t_auth_user_id t = Some (au_id u))
                        (tenants db3) = [row]).
    { subst db3 db2. cbn [tenants Schema.with_user_roles Schema.with_tenants].
      rewrite Hten, filter_app, filter_none by done.
      by rewrite filter_cons_True, filter_nil. }
    split_and!; try done.
    + subst db3 db2. simpl. by rewrite Hten.
    + subst db3 db2. simpl. by rewrite Hroles.
    + unfold Schema.has_role. subst db3. simpl. rewrite existsb_app. simpl.
      by rewrite String.eqb_refl, orb_true_r.
    + unfold Schema.get_tenant_id_for_user. by rewrite Hfilter.
    + unfold SubmitRequest.fetchTenantInfo, Schema.select_tenants.
      rewrite list_filter_filter_l.
      2:{ intros t Ht. unfold Schema.tenants_select_policy.
          rewrite Ht, bool_decide_true by done. by rewrite orb_true_r. }
      by rewrite Hfilter.
  - intros Hnew. destruct signUp_returns_session; [|done]. clear Hnew.
    unfold TenantManagement.session_after_signUp in Hrun.
    assert (H2 : Schema.insert_tenant (au_id u) now (TenantManagement.name f)
                   (TenantManagement.room_no f) (TenantManagement.contact f)
                   (TenantManagement.deposit_amount f) (au_id u) db1
                 = inl (Schema.rls_violation "tenants")).
    { unfold Schema.insert_tenant, Schema.tenants_write_policy.
      by rewrite Hfit, Hnorole1. }
    rewrite H2 in Hrun. simpl in Hrun.
    rewrite <- !app_assoc in Hrun. simpl in Hrun.
    rewrite Hrun. cbn [fst snd store calls].
    split_and!; try done.
    + rewrite Husers. apply elem_of_app. right. by constructor.
    + unfold SubmitRequest.fetchTenantInfo, Schema.select_tenants.
      rewrite list_filter_filter_l.
      2:{ intros t Ht. unfold Schema.tenants_select_policy.
          rewrite Ht, bool_decide_true by done. by rewrite orb_true_r. }
      by rewrite Hten, filter_none.
Qed.

(** X19 on the scenario: Carl is added to the seeded store, by a client
    that keeps the session of the admin, and by one that is handed the
    session of Carl. *)
Lemma provisioning_follows_the_session_witness :
  (let r := TenantManagement.handleSubmit_session Scenario.zod_email false false
              Scenario.admin_uid 2001 Scenario.dev_form
              (mkWorld Scenario.db_seeded []) in
   r.1 = TenantManagement.TenantAdded Scenario.dev_form
   /\ Schema.has_role (store r.2) "7" tenant = true
   /\ SubmitRequest.fetchTenantInfo (store r.2) "7"
      = Some (SubmitRequest.mkTenantInfo "8" "103"))
  /\ (let r := TenantManagement.handleSubmit_session Scenario.zod_email false true
                 Scenario.admin_uid 2001 Scenario.dev_form
                 (mkWorld Scenario.db_seeded []) in
      r.1 = mkToast "Error" "Failed to add tenant" true
      /\ calls r.2 = [CallSignUp; CallInsert "tenants"]
      /\ Schema.has_role (store r.2) "7" tenant = false
      /\ SubmitRequest.fetchTenantInfo (store r.2) "7" = None).
Proof.
  assert (Hlink : forall t, t ∈ tenants Scenario.db_seeded ->
                            t_auth_user_id t <> Some "7").
  { intros t Ht. vm_compute in Ht.
    apply elem_of_cons in Ht as [->|Ht%list_elem_of_singleton]; [done|].
    by subst t. }
  split.
  - intros r.
    destruct (provisioning_follows_the_session Scenario.zod_email false false
                Scenario.admin_uid 2001 Scenario.dev_form
                (mkWorld Scenario.db_seeded [])
                (mk_auth_user "7" "carl@pg.example")
                (match Schema.auth_signUp "carl@pg.example" "secret1"
                         Scenario.db_seeded with
                 | inr x => x.2
                 | inl _ => Scenario.db_seeded
                 end))
      as [H _];
      [reflexivity | reflexivity | reflexivity | reflexivity
      | by intros [] | exact Hlink |].
    destruct (H eq_refl) as (_ & H1 & _ & _ & _ & H2 & _ & H3).
    split; [exact H1|]. split; [exact H2 | exact H3].
  - intros r.
    destruct (provisioning_follows_the_session Scenario.zod_email false true
                Scenario.admin_uid 2001 Scenario.dev_form
                (mkWorld Scenario.db_seeded [])
                (mk_auth_user "7" "carl@pg.example")
                (match Schema.auth_signUp "carl@pg.example" "secret1"
                         Scenario.db_seeded with
                 | inr x => x.2
                 | inl _ => Scenario.db_seeded
                 end))
      as [_ H];
      [reflexivity | reflexivity | reflexivity | reflexivity
      | by intros [] | exact Hlink |].
    destruct (H eq_refl) as (H1 & H2 & _ & _ & _ & H3 & H4).
    split; [exact H1|]. split; [exact (f_equal calls H2)|].
    split; [exact H3 | exact H4].
Defined.

(** ** A principal and its tenant records *)

(** X20. The request page finds a tenant record for a principal
    exactly when one record, no more, is linked to it; otherwise the
    submission ends with the toast that no tenant information was
    found, before any validation, and nothing is sent to the store,
    even though with several records the store's policy would accept
    a request for the first of them. *)
Theorem submission_needs_exactly_one_record (db : DB) (uid : uuid) (now : Z)
    (s : string) (log : list Call) :
  let linked := filter (fun t => t_auth_user_id t = Some uid) (tenants db) in
  (is_Some (SubmitRequest.fetchTenantInfo db uid) <-> length linked = 1%nat)
  /\ (length linked <> 1%nat ->
      SubmitRequest.handleSubmit uid now (SubmitRequest.fetchTenantInfo db uid) s
        (mkWorld db log)
      = (mkToast "Error" "Tenant information not found" true, mkWorld db log))
  /\ (forall t, head linked = Some t -> Schema.owns db uid (t_id t) = true).
Proof.
  intros linked.
  assert (Hsel : filter (fun t => t_auth_user_id t = Some uid)
                   (Schema.select_tenants db uid) = linked).
  { unfold Schema.select_tenants. apply list_filter_filter_l.
    intros t Ht. unfold Schema.tenants_select_policy.
    rewrite Ht, bool_decide_true by done. by rewrite orb_true_r. }
  unfold SubmitRequest.fetchTenantInfo. rewrite Hsel.
  split_and!.
  - destruct linked as [|t [|t' l]]; simpl; split;
      (done || lia || by intros [? ?] || eauto).
  - intros Hlen. by destruct linked as [|t [|t' l]].
  - intros t Ht. apply owns_iff. unfold Schema.get_tenant_id_for_user.
    fold linked. by rewrite Ht.
Qed.
